(** * Katowice flight board: normalisation of raw flight entries

    A shallow embedding of the two scripts of the repository,
    [katowise_v3.py] and [19_05_flight.py], and the properties their
    specification states about them.

    Conventions of the embedding.
    - A Python [str] is a Rocq [string].  The character classes
      ([str.isspace], [str.isalpha], [\d], [\s], [str.lower], [str.upper])
      are those of Python on ASCII text; a character above U+007F is
      carried through unchanged and belongs to no class.  On ASCII text
      a character is one byte, so that lengths and indices are the ones
      of Python.  A property that depends on the class or on the
      position of a character is stated for ASCII text ([is_ascii],
      [ascii_field]).
    - A value that leaves a function by [raise] is [Raise e]; a value
      that is returned is [Ok v].
    - A [datetime.date] is its proleptic Gregorian ordinal
      ([date.toordinal()]): comparison and [timedelta] arithmetic are the
      ones of Python, year/month/day are recovered as CPython does.
    - [pytz] and the HTTP session are outside the repository: a time zone
      is the function that gives the UTC offset of a wall-clock time, the
      flight-board API is a function from the query to its answer. *)

From Stdlib Require Import ZArith List String Ascii Bool Lia Permutation.
From stdpp Require Import base option list gmap strings.

Local Open Scope string_scope.
Local Open Scope Z_scope.

#[local] Set Warnings "-register-all".

(* ===================================================================== *)
(** * Part I: definitions                                                 *)
(* ===================================================================== *)

(** ** Exceptions and results *)

Inductive exn : Type :=
| ValueError
| TypeError
| AttributeError
| OverflowError
| RequestException.

Inductive pyresult (A : Type) : Type :=
| Ok (a : A)
| Raise (e : exn).
Arguments Ok {A} a.
Arguments Raise {A} e.

#[global] Instance pyresult_ret : MRet pyresult := fun _ a => Ok a.
#[global] Instance pyresult_bind : MBind pyresult := fun _ _ f m =>
  match m with
  | Ok a => f a
  | Raise e => Raise e
  end.

(** [try: body / except Exception: handler] *)
Definition try_except {A} (body : pyresult A) (handler : exn → pyresult A)
  : pyresult A :=
  match body with
  | Ok a => Ok a
  | Raise e => handler e
  end.

(** [except requests.RequestException]: the only class the query loop
    catches. *)
Definition is_request_exception (e : exn) : bool :=
  match e with
  | RequestException => true
  | _ => false
  end.

(** ** Python values

    The values a decoded JSON document holds, and the values of the
    fields of an output record.  A JSON number is an integer here: the
    scripts only test a number for truth and call [str] methods on it,
    and a float answers both as an integer does. *)

Inductive pyval : Type :=
| PNone
| PBool (b : bool)
| PInt (n : Z)
| PStr (s : string)
| PList (l : list pyval)
| PDict (l : list (string * pyval)).

(** Truth value of an object, as [not x] and [if x] test it. *)
Definition truthy (v : pyval) : bool :=
  match v with
  | PNone => false
  | PBool b => b
  | PInt n => negb (n =? 0)
  | PStr s => negb (String.eqb s EmptyString)
  | PList l => match l with [] => false | _ => true end
  | PDict l => match l with [] => false | _ => true end
  end.

(** A dict with string keys: the raw entry and the output record. *)
Abbreviation pydict := (gmap string pyval).

(** [d.get(key, default)] *)
Definition dict_get (d : pydict) (key : string) (dflt : pyval) : pyval :=
  default dflt (d !! key).

(** ** Characters *)

Definition code (c : ascii) : Z := Z.of_N (N_of_ascii c).

Definition chr (n : Z) : ascii := ascii_of_N (Z.to_N n).

(** [str.isspace] on ASCII: TAB, LF, VT, FF, CR, FS, GS, RS, US, SPACE.
    The class [\s] of [re] is the same. *)
Definition isspace (c : ascii) : bool :=
  let n := code c in
  ((9 <=? n) && (n <=? 13)) || ((28 <=? n) && (n <=? 32)).

(** The white space [int()] skips around an ASCII literal. *)
Definition is_c_space (c : ascii) : bool :=
  let n := code c in
  ((9 <=? n) && (n <=? 13)) || (n =? 32).

(** [\d] and the digits of [int()]. *)
Definition isdigit (c : ascii) : bool :=
  let n := code c in (48 <=? n) && (n <=? 57).

Definition isupper (c : ascii) : bool :=
  let n := code c in (65 <=? n) && (n <=? 90).

Definition islower (c : ascii) : bool :=
  let n := code c in (97 <=? n) && (n <=? 122).

(** [str.isalpha] of one character. *)
Definition isalpha (c : ascii) : bool := isupper c || islower c.

(** The class [[A-Z0-9]]. *)
Definition is_upper_alnum (c : ascii) : bool := isupper c || isdigit c.

Definition lower_char (c : ascii) : ascii :=
  if isupper c then chr (code c + 32) else c.

Definition upper_char (c : ascii) : ascii :=
  if islower c then chr (code c - 32) else c.

Definition digit_value (c : ascii) : Z := code c - 48.

Definition digit_char (d : Z) : ascii := chr (48 + d mod 10).

(** ** Strings *)

Fixpoint map_string (f : ascii → ascii) (s : string) : string :=
  match s with
  | EmptyString => EmptyString
  | String c r => String (f c) (map_string f r)
  end.

(** [s.lower()], [s.upper()] *)
Definition lower (s : string) : string := map_string lower_char s.
Definition upper (s : string) : string := map_string upper_char s.

(** [len(s)] *)
Definition len (s : string) : Z := Z.of_nat (String.length s).

(** [s[n:]] and [s[:n]] for a literal [n >= 0]. *)
Fixpoint slice_from (n : nat) (s : string) : string :=
  match n, s with
  | O, _ => s
  | S n', EmptyString => EmptyString
  | S n', String _ r => slice_from n' r
  end.

Fixpoint slice_to (n : nat) (s : string) : string :=
  match n, s with
  | O, _ => EmptyString
  | S n', EmptyString => EmptyString
  | S n', String c r => String c (slice_to n' r)
  end.

(** [s[n]], where it exists. *)
Definition char_at (n : nat) (s : string) : option ascii := String.get n s.

(** [s.startswith(c)] for a one-character prefix. *)
Definition startswith_char (c : ascii) (s : string) : bool :=
  match s with
  | String c' _ => Ascii.eqb c' c
  | EmptyString => false
  end.

(** [c in s] for a one-character needle. *)
Fixpoint contains_char (c : ascii) (s : string) : bool :=
  match s with
  | EmptyString => false
  | String c' r => Ascii.eqb c' c || contains_char c r
  end.

(** [s.replace(c, empty)]: every occurrence of the character [c] is
    removed. *)
Fixpoint remove_char (c : ascii) (s : string) : string :=
  match s with
  | EmptyString => EmptyString
  | String c' r =>
      if Ascii.eqb c' c then remove_char c r else String c' (remove_char c r)
  end.

Fixpoint lstrip_by (sp : ascii → bool) (s : string) : string :=
  match s with
  | EmptyString => EmptyString
  | String c r => if sp c then lstrip_by sp r else s
  end.

Fixpoint rstrip_by (sp : ascii → bool) (s : string) : string :=
  match s with
  | EmptyString => EmptyString
  | String c r =>
      match rstrip_by sp r with
      | EmptyString => if sp c then EmptyString else String c EmptyString
      | r' => String c r'
      end
  end.

(** [s.strip()] *)
Definition strip (s : string) : string := rstrip_by isspace (lstrip_by isspace s).

(** [s.split(sep)] for a one-character separator: every occurrence cuts,
    empty pieces are kept, the result is never empty. *)
Fixpoint split_on (sep : ascii) (s : string) : list string :=
  match s with
  | EmptyString => [EmptyString]
  | String c r =>
      if Ascii.eqb c sep then EmptyString :: split_on sep r
      else match split_on sep r with
           | h :: t => String c h :: t
           | [] => [String c EmptyString]
           end
  end.

(** [s.split()]: the maximal runs of characters that are not white
    space. *)
Fixpoint split_ws (s : string) : list string :=
  match s with
  | EmptyString => []
  | String c r =>
      if isspace c then split_ws r
      else match r with
           | EmptyString => [String c EmptyString]
           | String c' _ =>
               if isspace c' then String c EmptyString :: split_ws r
               else match split_ws r with
                    | h :: t => String c h :: t
                    | [] => [String c EmptyString]
                    end
           end
  end.

(** [parts[0]] and [parts[-1]] of a list that [split] returned. *)
Definition first_part (parts : list string) : string := hd EmptyString parts.
Definition last_part (parts : list string) : string := List.last parts EmptyString.

(** ** [int(s)]

    An ASCII literal in base ten: white space around, an optional sign,
    then digits in which single underscores may separate digits. *)

Fixpoint int_digits (acc : Z) (after_underscore : bool) (s : string)
  : option Z :=
  match s with
  | EmptyString => if after_underscore then None else Some acc
  | String c r =>
      if isdigit c then int_digits (10 * acc + digit_value c) false r
      else if Ascii.eqb c "_" then
             if after_underscore then None else int_digits acc true r
           else None
  end.

Definition int_unsigned (s : string) : option Z :=
  match s with
  | String c r => if isdigit c then int_digits (digit_value c) false r else None
  | EmptyString => None
  end.

Definition py_int (s : string) : pyresult Z :=
  let t := rstrip_by is_c_space (lstrip_by is_c_space s) in
  let signed :=
    match t with
    | String "+" r => (false, r)
    | String "-" r => (true, r)
    | _ => (false, t)
    end in
  match int_unsigned (snd signed) with
  | Some n => Ok (if fst signed then - n else n)
  | None => Raise ValueError
  end.

(** ** The fragment of [re] the scripts use

    Both patterns are a [^], a sequence of character classes each with a
    greedy bounded repetition, some of them captured, and a [$].  A
    repetition first takes as many characters as it can and gives them
    back one at a time while the rest of the pattern fails: the first
    success is the match, as in the backtracking matcher of [re]. *)

Record re_item : Type := {
  re_class : ascii → bool;
  re_min : nat;
  re_max : option nat;
  re_group : bool
}.

(** How many characters of the class stand at the head of [s], at most
    [cap] of them. *)
Fixpoint run_length (cls : ascii → bool) (cap : option nat) (s : string)
  : nat :=
  match s with
  | EmptyString => O
  | String c r =>
      if cls c then
        match cap with
        | Some O => O
        | Some (S k) => S (run_length cls (Some k) r)
        | None => S (run_length cls None r)
        end
      else O
  end.

(** [$] without [re.MULTILINE]: the end of the string, or just before a
    newline that ends it. *)
Definition at_dollar (s : string) : bool :=
  match s with
  | EmptyString => true
  | String c EmptyString => Ascii.eqb c "010"
  | _ => false
  end.

(** Try [k], [k-1], ..., down to [lo] repetitions. *)
Fixpoint try_counts {A} (attempt : nat → option A) (lo k : nat) : option A :=
  if (k <? lo)%nat then None
  else match attempt k with
       | Some r => Some r
       | None => match k with
                 | O => None
                 | S k' => try_counts attempt lo k'
                 end
       end.

(** [re.match] of [^ items $] on [s]: the captured groups, in order. *)
Fixpoint re_match (items : list re_item) (s : string) : option (list string) :=
  match items with
  | [] => if at_dollar s then Some [] else None
  | it :: rest =>
      try_counts
        (fun k =>
           match re_match rest (slice_from k s) with
           | Some groups =>
               Some (if re_group it then slice_to k s :: groups else groups)
           | None => None
           end)
        (re_min it)
        (run_length (re_class it) (re_max it) s)
  end.

Definition is_char (c : ascii) : ascii → bool := fun x => Ascii.eqb x c.

(** [^([A-Z0-9]{2,3})\s*0*(\d+)$] *)
Definition flight_number_re : list re_item :=
  [ {| re_class := is_upper_alnum; re_min := 2; re_max := Some 3%nat; re_group := true |};
    {| re_class := isspace; re_min := 0; re_max := None; re_group := false |};
    {| re_class := is_char "0"; re_min := 0; re_max := None; re_group := false |};
    {| re_class := isdigit; re_min := 1; re_max := None; re_group := true |} ].

(** [^\d{2}:\d{2}$] *)
Definition hhmm_re : list re_item :=
  [ {| re_class := isdigit; re_min := 2; re_max := Some 2%nat; re_group := false |};
    {| re_class := is_char ":"; re_min := 1; re_max := Some 1%nat; re_group := false |};
    {| re_class := isdigit; re_min := 2; re_max := Some 2%nat; re_group := false |} ].

(** ** [datetime]

    A [date] is its ordinal: day 1 is 0001-01-01, [MAXORDINAL] is
    9999-12-31.  A [timedelta] is normalised as Python keeps it:
    [0 <= seconds < 86400] and [0 <= microseconds < 1000000].  A
    [datetime] keeps its [tzinfo] unchanged through arithmetic, so the
    record holds the wall-clock fields only. *)

Definition date : Type := Z.

Definition MAXORDINAL : Z := 3652059.

Record timedelta : Type := {
  td_days : Z;
  td_seconds : Z;
  td_microseconds : Z
}.

Definition mk_timedelta (days seconds microseconds : Z) : timedelta :=
  let s := seconds + microseconds / 1000000 in
  {| td_days := days + s / 86400;
     td_seconds := s mod 86400;
     td_microseconds := microseconds mod 1000000 |}.

(** [datetime.timedelta(hours=h)], [datetime.timedelta(days=d)] *)
Definition timedelta_hours (h : Z) : timedelta := mk_timedelta 0 (h * 3600) 0.
Definition timedelta_days (d : Z) : timedelta := mk_timedelta d 0 0.

Definition timedelta_neg (t : timedelta) : timedelta :=
  mk_timedelta (- td_days t) (- td_seconds t) (- td_microseconds t).

Definition timedelta_add (a b : timedelta) : timedelta :=
  mk_timedelta (td_days a + td_days b) (td_seconds a + td_seconds b)
               (td_microseconds a + td_microseconds b).

Record datetime : Type := {
  dt_date : date;
  dt_hour : Z;
  dt_minute : Z;
  dt_second : Z;
  dt_microsecond : Z
}.

(** [dt + td] *)
Definition datetime_add (dt : datetime) (td : timedelta) : pyresult datetime :=
  let delta :=
    timedelta_add
      (mk_timedelta (dt_date dt)
                    (dt_hour dt * 3600 + dt_minute dt * 60 + dt_second dt)
                    (dt_microsecond dt))
      td in
  let hour := td_seconds delta / 3600 in
  let rem := td_seconds delta mod 3600 in
  if (0 <? td_days delta) && (td_days delta <=? MAXORDINAL) then
    Ok {| dt_date := td_days delta;
          dt_hour := hour;
          dt_minute := rem / 60;
          dt_second := rem mod 60;
          dt_microsecond := td_microseconds delta |}
  else Raise OverflowError.

(** [dt - td] is [dt + (-td)]. *)
Definition datetime_sub (dt : datetime) (td : timedelta) : pyresult datetime :=
  datetime_add dt (timedelta_neg td).

(** [d + td] on a date: only the days count. *)
Definition date_add (d : date) (td : timedelta) : pyresult date :=
  let o := d + td_days td in
  if (0 <? o) && (o <=? MAXORDINAL) then Ok o else Raise OverflowError.

(** [datetime.time(hour, minute)] *)
Definition py_time (hour minute : Z) : pyresult (Z * Z) :=
  if negb ((0 <=? hour) && (hour <=? 23)) then Raise ValueError
  else if negb ((0 <=? minute) && (minute <=? 59)) then Raise ValueError
  else Ok (hour, minute).

(** Year, month and day of an ordinal. *)
Definition DAYS_IN_MONTH (month : Z) : Z :=
  match month with
  | 1 => 31 | 2 => 28 | 3 => 31 | 4 => 30 | 5 => 31 | 6 => 30
  | 7 => 31 | 8 => 31 | 9 => 30 | 10 => 31 | 11 => 30 | 12 => 31
  | _ => -1
  end.

Definition DAYS_BEFORE_MONTH (month : Z) : Z :=
  match month with
  | 1 => 0 | 2 => 31 | 3 => 59 | 4 => 90 | 5 => 120 | 6 => 151
  | 7 => 181 | 8 => 212 | 9 => 243 | 10 => 273 | 11 => 304 | 12 => 334
  | _ => -1
  end.

Definition ord2ymd (ordinal : Z) : Z * Z * Z :=
  let n := ordinal - 1 in
  let n400 := n / 146097 in
  let n := n mod 146097 in
  let n100 := n / 36524 in
  let n := n mod 36524 in
  let n4 := n / 1461 in
  let n := n mod 1461 in
  let n1 := n / 365 in
  let n := n mod 365 in
  let year := n400 * 400 + 1 + n100 * 100 + n4 * 4 + n1 in
  if (n1 =? 4) || (n100 =? 4) then (year - 1, 12, 31)
  else
    let leapyear := (n1 =? 3) && (negb (n4 =? 24) || (n100 =? 3)) in
    let month := Z.shiftr (n + 50) 5 in
    let preceding :=
      DAYS_BEFORE_MONTH month + (if (2 <? month) && leapyear then 1 else 0) in
    if n <? preceding then
      let month' := month - 1 in
      let preceding' :=
        preceding
        - (DAYS_IN_MONTH month' + (if (month' =? 2) && leapyear then 1 else 0)) in
      (year, month', n - preceding' + 1)
    else (year, month, n - preceding + 1).

(** Decimal digits of a natural number, most significant first. *)
Fixpoint decimal_go (fuel : nat) (n : Z) (acc : string) : string :=
  match fuel with
  | O => acc
  | S fuel' =>
      let acc' := String (digit_char n) acc in
      if n <? 10 then acc' else decimal_go fuel' (n / 10) acc'
  end.

Definition decimal (n : Z) : string :=
  decimal_go (S (Z.to_nat (Z.log2 n))) n EmptyString.

Fixpoint zeros (k : nat) : string :=
  match k with
  | O => EmptyString
  | S k' => String "0" (zeros k')
  end.

(** ["%0<width>d" % n] for [n >= 0] *)
Definition pad (width : nat) (n : Z) : string :=
  let s := decimal n in
  zeros (width - String.length s) ++ s.

(** [d.isoformat()] and [d.strftime("%Y-%m-%d")] *)
Definition date_isoformat (d : date) : string :=
  let '(y, m, dd) := ord2ymd d in
  pad 4 y ++ "-" ++ pad 2 m ++ "-" ++ pad 2 dd.

(** [dt.strftime("%H:%M")] *)
Definition strftime_HM (dt : datetime) : string :=
  pad 2 (dt_hour dt) ++ ":" ++ pad 2 (dt_minute dt).

(** The UTC offset as [isoformat] prints it; [offset] is in minutes. *)
Definition format_utcoffset (offset : Z) : string :=
  (if offset <? 0 then "-" else "+")
  ++ pad 2 (Z.abs offset / 60) ++ ":" ++ pad 2 (Z.abs offset mod 60).

(** A [pytz] time zone: [localize tz d hour minute] is the UTC offset, in
    minutes, that [tz.localize] gives the wall-clock time
    [datetime.combine(d, time(hour, minute))], or the exception it
    raises. *)
Record tzinfo : Type := {
  localize : date → Z → Z → pyresult Z
}.

(** [tz.localize(datetime.combine(d, time(hour, minute)))
      .isoformat(timespec='milliseconds')] *)
Definition isoformat_ms (d : date) (hour minute offset : Z) : string :=
  date_isoformat d ++ "T" ++ pad 2 hour ++ ":" ++ pad 2 minute
  ++ ":" ++ pad 2 0 ++ "." ++ pad 3 0 ++ format_utcoffset offset.

(** ** The query loop: its store and its effects

    [get_flights] appends to one list, [all_flights], and sends one HTTP
    request per date.  A request is the [params] of [session.get]; the
    API answers a request with the list under the key ["data"] of the
    decoded body, or with the exception that [session.get],
    [raise_for_status] or [json] raises.  The messages that [print]
    writes are not part of the model. *)

Record request : Type := {
  rq_direction : Z;
  rq_date : string;
  rq_time_from : string;
  rq_time_to : string
}.

Definition flight_api : Type := request → pyresult (list pydict).

Record store : Type := {
  all_flights : list pydict;
  requests : list request
}.

Definition prog (A : Type) : Type := store → store * pyresult A.

#[global] Instance prog_ret : MRet prog := fun _ a st => (st, Ok a).
#[global] Instance prog_bind : MBind prog := fun _ _ f m st =>
  match m st with
  | (st', Ok a) => f a st'
  | (st', Raise e) => (st', Raise e)
  end.

Definition lift {A} (r : pyresult A) : prog A := fun st => (st, r).

(** [all_flights.append(flight)] *)
Definition append_flight (flight : pydict) : prog unit := fun st =>
  ({| all_flights := all_flights st ++ [flight]; requests := requests st |},
   Ok tt).

(** [session.get(base_url, params=params)] and the decoding of the
    answer. *)
Definition send (api : flight_api) (params : request) : prog (list pydict) :=
  fun st =>
    ({| all_flights := all_flights st; requests := requests st ++ [params] |},
     api params).

(** [try: body / except requests.RequestException: print(...)] *)
Definition try_except_request (body : prog unit) : prog unit := fun st =>
  match body st with
  | (st', Raise e) =>
      if is_request_exception e then (st', Ok tt) else (st', Raise e)
  | r => r
  end.

(** [for x in l: body x] *)
Fixpoint for_each {A} (l : list A) (body : A → prog unit) : prog unit :=
  match l with
  | [] => mret tt
  | x :: rest => body x ≫= fun _ => for_each rest body
  end.

(** [return all_flights] *)
Definition return_all_flights : prog (list pydict) := fun st =>
  (st, Ok (all_flights st)).

Definition empty_store : store := {| all_flights := []; requests := [] |}.

(** A method of [str] called on [v]: an object of another type has no
    such attribute. *)
Definition as_str (v : pyval) : pyresult string :=
  match v with
  | PStr s => Ok s
  | _ => Raise AttributeError
  end.

(** [hour, minute = map(int, time_str.split(":"))] *)
Definition unpack_hour_minute (parts : list string) : pyresult (Z * Z) :=
  match parts with
  | [h; m] => hour ← py_int h; minute ← py_int m; Ok (hour, minute)
  | _ => Raise ValueError
  end.

(** The body of the [try] of [parse_flight_time], the same in both
    scripts. *)
Definition parse_flight_time_body (time_str : pyval) (d : date) (tz : tzinfo)
  : pyresult pyval :=
  s ← as_str time_str;
  hm ← unpack_hour_minute (split_on ":" s);
  t ← py_time (fst hm) (snd hm);
  offset ← localize tz d (fst t) (snd t);
  Ok (PStr (isoformat_ms d (fst t) (snd t) offset)).

(** ** The helpers both scripts define, word for word the same *)

Definition validate_direction (direction_str : string) : pyresult Z :=
  let direction_str := strip (lower direction_str) in
  if String.eqb direction_str "departure" || String.eqb direction_str "departures"
  then Ok 1
  else if String.eqb direction_str "arrival" || String.eqb direction_str "arrivals"
  then Ok 2
  else Raise ValueError.

(** The [while] loop of [calculate_date_window]; [fuel] bounds the number
    of iterations. *)
Fixpoint date_loop (fuel : nat) (current_date end_date : date)
  (dates : gset date) : pyresult (gset date) :=
  match fuel with
  | O => Ok dates
  | S fuel' =>
      if current_date <=? end_date then
        next ← date_add current_date (timedelta_days 1);
        date_loop fuel' next end_date ({[ current_date ]} ∪ dates)
      else Ok dates
  end.

Definition calculate_date_window (now : datetime) : pyresult (gset date) :=
  time_window_start ← datetime_sub now (timedelta_hours 12);
  time_window_end ← datetime_add now (timedelta_hours 12);
  let current_date := dt_date time_window_start in
  let end_date := dt_date time_window_end in
  date_loop (S (Z.to_nat (end_date - current_date + 1)))
            current_date end_date ∅.

Definition get_time_range (query_date : date) (now : datetime)
  : pyresult (string * string) :=
  time_window_start ← datetime_sub now (timedelta_hours 12);
  time_window_end ← datetime_add now (timedelta_hours 12);
  let time_from :=
    if query_date =? dt_date time_window_start
    then strftime_HM time_window_start else "00:00" in
  let time_to :=
    if query_date =? dt_date time_window_end
    then strftime_HM time_window_end else "23:59" in
  Ok (time_from, time_to).

(** The table [airport_codes] of [get_flights]. *)
Definition airport_codes_table : gmap string string :=
  list_to_map
    [ ("Katowice", "KTW"); ("Frankfurt", "FRA"); ("Warsaw", "WAW");
      ("Munich", "MUC"); ("Split", "SPU"); ("Reykjavík", "KEF");
      ("Katania", "CTA"); ("Larnaka", "LCA"); ("Alghero", "AHO");
      ("Teneryfa", "TFS"); ("Rzym", "FCO"); ("Mediolan Bergamo", "BGY");
      ("Londyn Luton", "LTN") ].

(** An argument at a call site of [process_flight]. *)
Inductive pyarg : Type :=
| ArgDict (d : pydict)
| ArgInt (n : Z)
| ArgCodes (codes : gmap string string)
| ArgTz (tz : tzinfo)
| ArgDate (d : date).

(** [status if status else "N/A"] *)
Definition status_or_na (status : string) : pyval :=
  if truthy (PStr status) then PStr status else PStr "N/A".

(** [x is None] *)
Definition is_None (v : pyval) : bool :=
  match v with
  | PNone => true
  | _ => false
  end.

(** [if flight:] on a dict. *)
Definition dict_truthy (d : pydict) : bool := (0 <? size d)%nat.

(** ** [katowise_v3.py] *)

Module Katowise.

Definition format_flight_number (raw_flight_number : pyval) : pyresult pyval :=
  s ← as_str raw_flight_number;
  match re_match flight_number_re (strip s) with
  | Some [airline_code; number] => Ok (PStr (airline_code ++ number))
  | _ => Ok raw_flight_number
  end.

Definition parse_flight_time (time_str : pyval) (d : date) (tz : tzinfo)
  : pyresult pyval :=
  if negb (truthy time_str) then Ok PNone
  else try_except (parse_flight_time_body time_str d tz) (fun _ => Ok PNone).

Definition extract_times (status : string) (scheduled_time : pyval)
  (tz : tzinfo) (query_date : date) : pyresult (pyval * pyval * pyval) :=
  let estimated_time := PNone in
  let actual_time := PNone in
  let status_parts := split_ws status in
  from_status ←
    (if (1 <? length status_parts)%nat
        && bool_decide (is_Some (re_match hhmm_re (last_part status_parts)))
     then
       let time_part := last_part status_parts in
       estimated_time ← parse_flight_time (PStr time_part) query_date tz;
       let actual_time := estimated_time in
       Ok (estimated_time, actual_time)
     else Ok (estimated_time, actual_time));
  let estimated_time := fst from_status in
  let actual_time := snd from_status in
  scheduled_time_parsed ← parse_flight_time scheduled_time query_date tz;
  let estimated_time :=
    if is_None estimated_time then PStr "N/A" else estimated_time in
  let actual_time :=
    if is_None actual_time then PStr "N/A" else actual_time in
  Ok (scheduled_time_parsed, estimated_time, actual_time).

Definition process_flight (flight_data : pydict) (direction : Z)
  (tz : tzinfo) (query_date : date) : pyresult pydict :=
  let raw_flight_number := dict_get flight_data "flight_number" (PStr EmptyString) in
  formatted_flight_number ← format_flight_number raw_flight_number;
  let airport_name := dict_get flight_data "airport" (PStr EmptyString) in
  let airline_name := dict_get flight_data "airline_name" (PStr EmptyString) in
  let scheduled_time := dict_get flight_data "scheduled_time" (PStr EmptyString) in
  let terminal := dict_get flight_data "terminal" (PStr EmptyString) in
  status_raw ← as_str (dict_get flight_data "status" (PStr EmptyString));
  let status := strip status_raw in
  times ← extract_times status scheduled_time tz query_date;
  let scheduled := fst (fst times) in
  let estimated := snd (fst times) in
  let actual := snd times in
  if direction =? 2 then
    let departure_airport := airport_name in
    Ok (list_to_map
          [ ("flight_number", formatted_flight_number);
            ("callsign", formatted_flight_number);
            ("airline", airline_name);
            ("departure_airport", departure_airport);
            ("scheduled_arrival_time", scheduled);
            ("estimated_arrival_time", estimated);
            ("actual_arrival_time", actual);
            ("status", status_or_na status);
            ("terminal", terminal) ])
  else
    let arrival_airport := airport_name in
    Ok (list_to_map
          [ ("flight_number", formatted_flight_number);
            ("callsign", formatted_flight_number);
            ("airline", airline_name);
            ("arrival_airport", arrival_airport);
            ("scheduled_departure_time", scheduled);
            ("estimated_departure_time", estimated);
            ("actual_departure_time", actual);
            ("status", status_or_na status);
            ("terminal", terminal);
            ("boarding_gate", dict_get flight_data "boarding_gate" PNone);
            ("checkin_location", dict_get flight_data "checkin_location" PNone) ]).

(** A call of [process_flight] binds the positional arguments to the four
    parameters [flight_data, direction, tz, query_date]; with another
    number of arguments CPython raises [TypeError] before the body
    runs. *)
Definition call_process_flight (args : list pyarg) : pyresult pydict :=
  if negb (length args =? 4)%nat then Raise TypeError
  else match args with
       | [ArgDict flight_data; ArgInt direction; ArgTz tz; ArgDate query_date] =>
           process_flight flight_data direction tz query_date
       | _ => Raise AttributeError
       end.

Definition get_flights (api : flight_api) (warsaw_tz : tzinfo) (now : datetime)
  (direction_str : string) : prog (list pydict) :=
  direction ← lift (validate_direction direction_str);
  let airport_codes := airport_codes_table in
  dates_to_query ← lift (calculate_date_window now);
  _ ← for_each (elements dates_to_query) (fun query_date =>
        let date_str := date_isoformat query_date in
        range ← lift (get_time_range query_date now);
        let params := {| rq_direction := direction;
                         rq_date := date_str;
                         rq_time_from := fst range;
                         rq_time_to := snd range |} in
        try_except_request (
          data ← send api params;
          for_each data (fun flight_data =>
            flight ← lift (call_process_flight
                             [ ArgDict flight_data; ArgInt direction;
                               ArgCodes airport_codes; ArgTz warsaw_tz;
                               ArgDate query_date ]);
            if dict_truthy flight then append_flight flight else mret tt)));
  return_all_flights.

End Katowise.

(** ** [19_05_flight.py] *)

Module Flight1905.

Definition clean_flight_number (flight_number_raw : pyval) : pyresult string :=
  if negb (truthy flight_number_raw) then Ok "N/A"
  else
    s ← as_str flight_number_raw;
    let flight_number_raw := strip s in
    if contains_char " " flight_number_raw then
      let parts := split_on " " flight_number_raw in
      let code := first_part parts in
      let number := last_part parts in
      let number :=
        if startswith_char "0" number then slice_from 1 number else number in
      Ok (code ++ number)
    else if startswith_char "0" (slice_from 2 flight_number_raw) then
      Ok (slice_to 2 flight_number_raw ++ slice_from 3 flight_number_raw)
    else Ok flight_number_raw.

Definition parse_flight_time (time_str : pyval) (d : date) (tz : tzinfo)
  : pyresult pyval :=
  if negb (truthy time_str) then Ok (PStr "N/A")
  else try_except (parse_flight_time_body time_str d tz)
                  (fun _ => Ok (PStr "N/A")).

Definition extract_times (status : string) (scheduled_time : pyval)
  (tz : tzinfo) (query_date : date) : pyresult (pyval * pyval * pyval) :=
  let estimated_time := PStr "N/A" in
  let actual_time := PStr "N/A" in
  let status_parts := split_ws status in
  from_status ←
    (if (1 <? length status_parts)%nat
        && bool_decide (is_Some (re_match hhmm_re (last_part status_parts)))
     then
       let time_part := last_part status_parts in
       time_parsed ← parse_flight_time (PStr time_part) query_date tz;
       Ok (time_parsed, time_parsed)
     else Ok (estimated_time, actual_time));
  let estimated_time := fst from_status in
  let actual_time := snd from_status in
  scheduled_time_parsed ← parse_flight_time scheduled_time query_date tz;
  Ok (scheduled_time_parsed, estimated_time, actual_time).

Definition is_third_char_alphabet (text : string) : bool :=
  if len text <? 3 then false
  else match char_at 2 text with
       | Some third_char => negb (isalpha third_char)
       | None => false
       end.

Definition get_flight_iata (flight_number : string) : string :=
  slice_to 2 flight_number.

Definition process_flight (flight_data : pydict) (direction : Z)
  (airport_codes : gmap string string) (tz : tzinfo) (query_date : date)
  : pyresult pydict :=
  let raw_flight_number := dict_get flight_data "flight_number" (PStr EmptyString) in
  formatted_flight_number ← clean_flight_number raw_flight_number;
  airport_raw ← as_str (dict_get flight_data "airport" (PStr EmptyString));
  let airport_name := remove_char "." (strip airport_raw) in
  airline_raw ← as_str (dict_get flight_data "airline_name" (PStr EmptyString));
  let airline_name := remove_char "." (strip airline_raw) in
  let scheduled_time := dict_get flight_data "scheduled_time" (PStr EmptyString) in
  status_raw ← as_str (dict_get flight_data "status" (PStr EmptyString));
  let status := strip status_raw in
  times ← extract_times status scheduled_time tz query_date;
  let scheduled := fst (fst times) in
  let estimated := snd (fst times) in
  let actual := snd times in
  if direction =? 2 then
    let arrival_airport := "KTW" in
    let departure_airport :=
      default (remove_char " " airport_name) (airport_codes !! airport_name) in
    Ok (list_to_map
          [ ("flight_number", PStr formatted_flight_number);
            ("is_flight_number", PBool (is_third_char_alphabet formatted_flight_number));
            ("callsign", PStr formatted_flight_number);
            ("airline", PStr airline_name);
            ("departure_airport", PStr (upper departure_airport));
            ("arrival_airport", PStr (upper arrival_airport));
            ("scheduled_arrival_time", scheduled);
            ("estimated_arrival_time", estimated);
            ("actual_arrival_time", actual);
            ("status", status_or_na status);
            ("airline_iata_code",
             PStr (if is_third_char_alphabet formatted_flight_number
                   then get_flight_iata formatted_flight_number else "N/A")) ])
  else
    let departure_airport := "KTW" in
    let arrival_airport :=
      default (remove_char " " airport_name) (airport_codes !! airport_name) in
    Ok (list_to_map
          [ ("flight_number", PStr formatted_flight_number);
            ("is_flight_number", PBool (is_third_char_alphabet formatted_flight_number));
            ("callsign", PStr formatted_flight_number);
            ("airline", PStr airline_name);
            ("departure_airport", PStr (upper departure_airport));
            ("arrival_airport", PStr (upper arrival_airport));
            ("scheduled_departure_time", scheduled);
            ("estimated_departure_time", estimated);
            ("actual_departure_time", actual);
            ("status", status_or_na status);
            ("airline_iata_code",
             PStr (if is_third_char_alphabet formatted_flight_number
                   then get_flight_iata formatted_flight_number else "N/A")) ]).

Definition get_flights (api : flight_api) (warsaw_tz : tzinfo) (now : datetime)
  (direction_str : string) : prog (list pydict) :=
  direction ← lift (validate_direction direction_str);
  let airport_codes := airport_codes_table in
  dates_to_query ← lift (calculate_date_window now);
  _ ← for_each (elements dates_to_query) (fun query_date =>
        let date_str := date_isoformat query_date in
        range ← lift (get_time_range query_date now);
        let params := {| rq_direction := direction;
                         rq_date := date_str;
                         rq_time_from := fst range;
                         rq_time_to := snd range |} in
        try_except_request (
          data ← send api params;
          for_each data (fun flight_data =>
            flight ← lift (process_flight flight_data direction airport_codes
                                          warsaw_tz query_date);
            if dict_truthy flight then append_flight flight else mret tt)));
  return_all_flights.

End Flight1905.

(** ** The vocabulary of the specification *)

(** A string has the given shape when it has one character per class, in
    order. *)
Fixpoint has_shape (shape : list (ascii → bool)) (s : string) : bool :=
  match shape, s with
  | [], EmptyString => true
  | cls :: shape', String c r => cls c && has_shape shape' r
  | _, _ => false
  end.

Definition is_sign (c : ascii) : bool := Ascii.eqb c "+" || Ascii.eqb c "-".

(** A fully qualified, timezone-aware ISO-8601 timestamp with
    milliseconds: [YYYY-MM-DDTHH:MM:SS.mmm+HH:MM]. *)
Definition is_iso_timestamp (s : string) : bool :=
  has_shape
    [ isdigit; isdigit; isdigit; isdigit; is_char "-";
      isdigit; isdigit; is_char "-"; isdigit; isdigit; is_char "T";
      isdigit; isdigit; is_char ":"; isdigit; isdigit; is_char ":";
      isdigit; isdigit; is_char "."; isdigit; isdigit; isdigit;
      is_sign; isdigit; isdigit; is_char ":"; isdigit; isdigit ] s.

(** What a time field of a normalised flight may hold. *)
Definition time_field_ok (v : option pyval) : Prop :=
  ∃ s, v = Some (PStr s) ∧ (is_iso_timestamp s = true ∨ s = "N/A").

(** The time fields of a record of the given direction. *)
Definition time_fields (direction : Z) : list string :=
  if direction =? 2
  then ["scheduled_arrival_time"; "estimated_arrival_time"; "actual_arrival_time"]
  else ["scheduled_departure_time"; "estimated_departure_time";
        "actual_departure_time"].

(** A date that [datetime.date] can hold. *)
Definition valid_date (d : date) : Prop := 1 <= d <= MAXORDINAL.

(** A time zone whose offsets lie strictly within a day, as
    [datetime] requires of [utcoffset]. *)
Definition tz_bounded (tz : tzinfo) : Prop :=
  ∀ d hour minute offset,
    localize tz d hour minute = Ok offset → -1440 < offset < 1440.

(** The wall-clock fields of a [datetime] are in range. *)
Definition wf_datetime (dt : datetime) : Prop :=
  0 <= dt_hour dt < 24 ∧ 0 <= dt_minute dt < 60 ∧
  0 <= dt_second dt < 60 ∧ 0 <= dt_microsecond dt < 1000000.

(** Microseconds from the start of day 0 to a wall-clock time. *)
Definition to_microseconds (dt : datetime) : Z :=
  ((dt_date dt * 24 + dt_hour dt) * 60 + dt_minute dt) * 60000000
  + dt_second dt * 1000000 + dt_microsecond dt.

(** Two digits, a colon, two digits. *)
Definition is_hhmm (token : string) : bool :=
  has_shape [isdigit; isdigit; is_char ":"; isdigit; isdigit] token.

(** Following the specification's words: the status carries a time when
    it has at least two white-space-separated tokens and the last one is
    two digits, a colon and two digits. *)
Definition status_time_token (status : string) : option string :=
  let tokens := split_ws status in
  if (2 <=? length tokens)%nat && is_hhmm (last_part tokens)
  then Some (last_part tokens) else None.

(** A time string reconstructed against the query date, or the
    sentinel when it cannot be. *)
Definition parsed_or_na (time_str : pyval) (d : date) (tz : tzinfo) : pyval :=
  match parse_flight_time_body time_str d tz with
  | Ok v => v
  | Raise _ => PStr "N/A"
  end.

(** A time string is malformed when it is not two integer literals
    around one colon, or when the hour or the minute is out of range. *)
Definition malformed_time (time_str : string) : bool :=
  match unpack_hour_minute (split_on ":" time_str) with
  | Ok (hour, minute) =>
      negb ((0 <=? hour) && (hour <=? 23) && (0 <=? minute) && (minute <=? 59))
  | Raise _ => true
  end.

(** Following the specification's words: a direction string is
    validated by comparing it, case-insensitively, with the singular and
    plural synonyms. *)
Definition claimed_direction (direction_str : string) : pyresult Z :=
  let folded := lower direction_str in
  if String.eqb folded "departure" || String.eqb folded "departures" then Ok 1
  else if String.eqb folded "arrival" || String.eqb folded "arrivals" then Ok 2
  else Raise ValueError.

(** Following the specification's words: the third character of the
    canonical flight number is not alphabetic. *)
Definition third_char_not_alphabetic (flight_number : string) : Prop :=
  ∃ c, char_at 2 flight_number = Some c ∧ isalpha c = false.

(** Every character of [s] is in the class. *)
Fixpoint all_chars (cls : ascii → bool) (s : string) : bool :=
  match s with
  | EmptyString => true
  | String c r => cls c && all_chars cls r
  end.

(** A text field of a raw entry is absent or holds a string. *)
Definition text_field (flight_data : pydict) (key : string) : Prop :=
  flight_data !! key = None ∨ ∃ s, flight_data !! key = Some (PStr s).

(** First-match lookup in the literal of a dict. *)
Fixpoint assoc (key : string) (l : list (string * pyval)) : option pyval :=
  match l with
  | [] => None
  | (k, v) :: rest => if String.eqb k key then Some v else assoc key rest
  end.

(** [p i && p (i+1) && ... && p (i+n-1)], for proofs by exhaustion. *)
Fixpoint check_from (n : nat) (i : Z) (p : Z → bool) : bool :=
  match n with
  | O => true
  | S k => p i && check_from k (i + 1) p
  end.

Definition check_below (n : Z) (p : Z → bool) : bool :=
  check_from (Z.to_nat n) 0 p.

(** The digits [pad] gives a number below a hundred, and a number
    below ten thousand. *)
Definition two_digits (v : Z) : string :=
  String (digit_char (v / 10)) (String (digit_char v) EmptyString).

Definition four_digits (v : Z) : string :=
  String (digit_char (v / 1000)) (String (digit_char (v / 100)) (two_digits v)).

(** Day [r + 1] of the 400-year cycle lies in the years 1 to 400, in a
    month and on a day that exist, and in year 400 only from its first
    day on. *)
Definition ymd_in_cycle (r : Z) : bool :=
  let '(y, m, d) := ord2ymd (r + 1) in
  (1 <=? y) && (y <=? 400) && (1 <=? m) && (m <=? 12) && (1 <=? d) && (d <=? 31)
  && implb (y =? 400) (145731 <=? r).

(** ** Sample data *)

(** Central European Summer Time throughout: UTC+02:00. *)
Definition sample_tz : tzinfo := {| localize := fun _ _ _ => Ok 120 |}.

(** 2025-05-19 *)
Definition sample_date : date := 739390.

(** 2025-05-19 10:30:15.000250 *)
Definition sample_now : datetime :=
  {| dt_date := sample_date; dt_hour := 10; dt_minute := 30;
     dt_second := 15; dt_microsecond := 250 |}.

(** The raw entry of the end-to-end scenario of the specification. *)
Definition ryanair_entry : pydict :=
  list_to_map
    [ ("flight_number", PStr "FR 0900"); ("airport", PStr "Alghero");
      ("airline_name", PStr "Ryanair"); ("scheduled_time", PStr "10:30");
      ("status", PStr "Boarding 10:35") ].

(** The same entry when the board shows no scheduled time. *)
Definition entry_without_schedule : pydict :=
  list_to_map
    [ ("flight_number", PStr "FR 0900"); ("airport", PStr "Alghero");
      ("airline_name", PStr "Ryanair"); ("scheduled_time", PStr EmptyString);
      ("status", PStr "Landed 14:05") ].

(** The same entry with a scheduled time that is not a time of day. *)
Definition entry_bad_schedule : pydict :=
  list_to_map
    [ ("flight_number", PStr "FR 0900"); ("airport", PStr "Alghero");
      ("airline_name", PStr "Ryanair"); ("scheduled_time", PStr "25:99");
      ("status", PStr "Landed 14:05") ].

(** An entry whose status is JSON [null]. *)
Definition entry_null_status : pydict :=
  list_to_map
    [ ("flight_number", PStr "FR 0900"); ("airport", PStr "Alghero");
      ("airline_name", PStr "Ryanair"); ("scheduled_time", PStr "10:30");
      ("status", PNone) ].

(** An entry with no flight number. *)
Definition entry_without_number : pydict :=
  list_to_map
    [ ("airport", PStr "Alghero"); ("airline_name", PStr "Ryanair");
      ("scheduled_time", PStr "10:30"); ("status", PStr "Landed 14:05") ].

(** The record the end-to-end scenario expects of [19_05_flight.py] for
    a departure on the sample date. *)
Definition ryanair_record : pydict :=
  list_to_map
    [ ("flight_number", PStr "FR900"); ("is_flight_number", PBool true);
      ("callsign", PStr "FR900"); ("airline", PStr "Ryanair");
      ("departure_airport", PStr "KTW"); ("arrival_airport", PStr "AHO");
      ("scheduled_departure_time", PStr "2025-05-19T10:30:00.000+02:00");
      ("estimated_departure_time", PStr "2025-05-19T10:35:00.000+02:00");
      ("actual_departure_time", PStr "2025-05-19T10:35:00.000+02:00");
      ("status", PStr "Boarding 10:35"); ("airline_iata_code", PStr "FR") ].

(** An API that answers every request with the one entry. *)
Definition sample_api : flight_api := fun _ => Ok [ryanair_entry].

(** ** Vocabulary for the rest of the code *)

(** An object is a [str]. *)
Definition is_str (v : pyval) : bool :=
  match v with
  | PStr _ => true
  | _ => false
  end.

(** The four text fields of a raw entry are strings or absent. *)
Definition text_entry (flight_data : pydict) : Prop :=
  text_field flight_data "flight_number" ∧ text_field flight_data "airport"
  ∧ text_field flight_data "airline_name" ∧ text_field flight_data "status".

(** The fields of a raw entry let [process_flight] of [19_05_flight.py]
    call its [str] methods: a flight number that is true is a string,
    the airport, the airline and the status are strings or absent. *)
Definition str_methods_apply_1905 (flight_data : pydict) : bool :=
  let number := dict_get flight_data "flight_number" (PStr EmptyString) in
  (negb (truthy number) || is_str number)
  && is_str (dict_get flight_data "airport" (PStr EmptyString))
  && is_str (dict_get flight_data "airline_name" (PStr EmptyString))
  && is_str (dict_get flight_data "status" (PStr EmptyString)).

(** The same for [katowise_v3.py], which calls [str] methods on the
    flight number and on the status only. *)
Definition str_methods_apply_katowise (flight_data : pydict) : bool :=
  is_str (dict_get flight_data "flight_number" (PStr EmptyString))
  && is_str (dict_get flight_data "status" (PStr EmptyString)).

(** How many entries the API answers a request with; none when it
    fails. *)
Definition answer_size (api : flight_api) (params : request) : nat :=
  match api params with
  | Ok data => length data
  | Raise _ => O
  end.

(** [YYYY-MM-DD] *)
Definition is_iso_date (s : string) : bool :=
  has_shape [ isdigit; isdigit; isdigit; isdigit; is_char "-";
              isdigit; isdigit; is_char "-"; isdigit; isdigit ] s.

(** No lower-case letter. *)
Definition no_lower (s : string) : bool :=
  all_chars (fun c => negb (islower c)) s.

(** An API that is down: every request fails. *)
Definition failing_api : flight_api := fun _ => Raise RequestException.

(** An API that answers the first day of the sample window with two
    entries and fails on the second. *)
Definition flaky_api : flight_api := fun params =>
  if String.eqb (rq_date params) "2025-05-18"
  then Ok [ryanair_entry; entry_without_number]
  else Raise RequestException.

(** The record [katowise_v3.py] makes of the end-to-end entry for a
    departure on the sample date. *)
Definition ryanair_record_katowise : pydict :=
  list_to_map
    [ ("flight_number", PStr "FR900"); ("callsign", PStr "FR900");
      ("airline", PStr "Ryanair"); ("arrival_airport", PStr "Alghero");
      ("scheduled_departure_time", PStr "2025-05-19T10:30:00.000+02:00");
      ("estimated_departure_time", PStr "2025-05-19T10:35:00.000+02:00");
      ("actual_departure_time", PStr "2025-05-19T10:35:00.000+02:00");
      ("status", PStr "Boarding 10:35"); ("terminal", PStr EmptyString);
      ("boarding_gate", PNone); ("checkin_location", PNone) ].

(** The record [19_05_flight.py] makes of the entry with the scheduled
    time ["25:99"], for an arrival on the sample date. *)
Definition bad_schedule_record : pydict :=
  list_to_map
    [ ("flight_number", PStr "FR900"); ("is_flight_number", PBool true);
      ("callsign", PStr "FR900"); ("airline", PStr "Ryanair");
      ("departure_airport", PStr "AHO"); ("arrival_airport", PStr "KTW");
      ("scheduled_arrival_time", PStr "N/A");
      ("estimated_arrival_time", PStr "2025-05-19T14:05:00.000+02:00");
      ("actual_arrival_time", PStr "2025-05-19T14:05:00.000+02:00");
      ("status", PStr "Landed 14:05"); ("airline_iata_code", PStr "FR") ].

(** ** ASCII text *)

(** Every character of [s] is below U+0080. *)
Definition is_ascii (s : string) : bool :=
  all_chars (fun c => code c <? 128) s.

(** The field of a raw entry, when it holds a string, holds ASCII
    text. *)
Definition ascii_field (flight_data : pydict) (key : string) : bool :=
  match flight_data !! key with
  | Some (PStr s) => is_ascii s
  | _ => true
  end.

(** The airport name of a raw entry is ASCII text, and so is the code
    the table has for it. *)
Definition ascii_airport (flight_data : pydict)
  (airport_codes : gmap string string) : bool :=
  ascii_field flight_data "airport"
  && match dict_get flight_data "airport" (PStr EmptyString) with
     | PStr raw =>
         from_option is_ascii true
           (airport_codes !! remove_char "." (strip raw))
     | _ => true
     end.

(** ** The time a status carries *)

(** The hour and the minute that two digits, a colon and two digits
    name. *)
Definition hhmm_fields (token : string) : option (Z * Z) :=
  match token with
  | String a (String b (String _ (String c (String d EmptyString)))) =>
      Some (10 * digit_value a + digit_value b,
            10 * digit_value c + digit_value d)
  | _ => None
  end.

(** Following the specification's words: a time of day reconstructed
    against the query date in the time zone.  It is the date, ["T"], the
    time as it is written, zero seconds and milliseconds, and the UTC
    offset of the time zone at that time.  There is none when the hour
    is above 23, when the minute is above 59, or when the time zone
    gives no offset. *)
Definition timestamp_of_hhmm (token : string) (d : date) (tz : tzinfo)
  : option string :=
  match hhmm_fields token with
  | Some (hour, minute) =>
      if (hour <=? 23) && (minute <=? 59) then
        match localize tz d hour minute with
        | Ok offset =>
            Some (date_isoformat d ++ "T" ++ token ++ ":00.000"
                  ++ format_utcoffset offset)
        | Raise _ => None
        end
      else None
  | None => None
  end.

(** Following the specification's words: the estimated and the actual
    time of a status are the time its last token names, reconstructed
    against the query date, when the status has at least two tokens and
    the last is two digits, a colon and two digits; the sentinel
    otherwise, and the sentinel when the token names no time of day. *)
Definition expected_status_time (status : string) (d : date) (tz : tzinfo)
  : pyval :=
  match status_time_token status with
  | Some token => PStr (default "N/A" (timestamp_of_hhmm token d tz))
  | None => PStr "N/A"
  end.

(** ** Proof automation *)

(** A lookup in a dict that is given by its insertions. *)
Ltac dict_lookup :=
  repeat first [ rewrite lookup_insert_eq
               | rewrite lookup_insert_ne by discriminate ];
  rewrite ?lookup_empty; reflexivity.

(** A fact about every character is checked on the 256 of them. *)
Ltac by_cases_on_char c :=
  destruct c as [[] [] [] [] [] [] [] []]; vm_compute; congruence.

(** Case analysis on every class test a goal makes on a character. *)
Ltac split_class_tests :=
  repeat (cbn -[isdigit is_char isspace is_upper_alnum];
          match goal with
          | |- context [isdigit ?x] => destruct (isdigit x) eqn:?
          | |- context [is_char ?c ?x] => destruct (is_char c x) eqn:?
          end; try discriminate);
  cbn -[isdigit is_char isspace is_upper_alnum].

(* ===================================================================== *)
(** * Part II: properties                                                 *)
(* ===================================================================== *)

(** ** Results and dict literals *)

Lemma bind_Ok {A B} (f : A → pyresult B) (a : A) : (Ok a ≫= f) = f a.
Proof. reflexivity. Qed.

Lemma bind_Raise {A B} (f : A → pyresult B) (e : exn) :
  (Raise e ≫= f) = Raise e.
Proof. reflexivity. Qed.

Lemma bind_Ok_inv {A B} (m : pyresult A) (f : A → pyresult B) (b : B) :
  (m ≫= f) = Ok b → ∃ a, m = Ok a ∧ f a = Ok b.
Proof. destruct m as [a|e]; [eauto | discriminate]. Qed.

Lemma string_eqb_decide (a b : string) : String.eqb a b = bool_decide (a = b).
Proof.
  destruct (String.eqb_spec a b) as [->|Hne].
  - by rewrite bool_decide_eq_true_2.
  - by rewrite bool_decide_eq_false_2.
Qed.

(** The dict literals of the scripts have distinct keys: a lookup finds
    the pair that has the key. *)
Lemma lookup_dict_literal (l : list (string * pyval)) (key : string) :
  (list_to_map l : pydict) !! key = assoc key l.
Proof.
  induction l as [|[k v] l IH]; simpl.
  - apply lookup_empty.
  - destruct (String.eqb_spec k key) as [->|Hne].
    + apply lookup_insert_eq.
    + rewrite lookup_insert_ne by done. exact IH.
Qed.

(** ** Characters and strings *)

Lemma isspace_lower_char c : isspace (lower_char c) = isspace c.
Proof. by_cases_on_char c. Qed.

Lemma newline_is_space c : isspace c = false → Ascii.eqb c "010" = false.
Proof. by_cases_on_char c. Qed.

Lemma upper_alnum_not_space c : is_upper_alnum c = true → isspace c = false.
Proof. by_cases_on_char c. Qed.

Lemma upper_alnum_not_blank c :
  is_upper_alnum c = true → Ascii.eqb c " " = false.
Proof. by_cases_on_char c. Qed.

Lemma digit_not_space c : isdigit c = true → isspace c = false.
Proof. by_cases_on_char c. Qed.

Lemma digit_not_blank c : isdigit c = true → Ascii.eqb c " " = false.
Proof. by_cases_on_char c. Qed.

Lemma digit_upper_alnum c : isdigit c = true → is_upper_alnum c = true.
Proof. by_cases_on_char c. Qed.

Lemma lstrip_lower s : lstrip_by isspace (lower s) = lower (lstrip_by isspace s).
Proof.
  induction s as [|c r IH]; [reflexivity|].
  simpl. rewrite isspace_lower_char.
  destruct (isspace c); [exact IH | reflexivity].
Qed.

Lemma rstrip_lower s : rstrip_by isspace (lower s) = lower (rstrip_by isspace s).
Proof.
  induction s as [|c r IH]; [reflexivity|].
  simpl. fold (lower r). rewrite IH, isspace_lower_char.
  destruct (rstrip_by isspace r) as [|c' r']; simpl.
  - destruct (isspace c); reflexivity.
  - reflexivity.
Qed.

(** Folding the case and stripping white space commute. *)
Lemma strip_lower s : strip (lower s) = lower (strip s).
Proof. unfold strip. by rewrite lstrip_lower, rstrip_lower. Qed.

Lemma app_String c r t : String c r ++ t = String c (r ++ t).
Proof. reflexivity. Qed.

Lemma app_empty_l t : EmptyString ++ t = t.
Proof. reflexivity. Qed.

Lemma all_chars_app cls s t :
  all_chars cls (s ++ t) = all_chars cls s && all_chars cls t.
Proof.
  induction s as [|c r IH]; [reflexivity|].
  rewrite app_String. simpl. rewrite IH. apply andb_assoc.
Qed.

Lemma all_chars_impl (p q : ascii → bool) s :
  (∀ c, p c = true → q c = true) →
  all_chars p s = true → all_chars q s = true.
Proof.
  intros Hpq. induction s as [|c r IH]; simpl; [done|].
  intros [Hc Hr]%andb_true_iff. rewrite (Hpq c Hc). simpl. auto.
Qed.

Lemma rstrip_by_no_space sp s :
  all_chars (fun c => negb (sp c)) s = true → rstrip_by sp s = s.
Proof.
  induction s as [|c r IH]; simpl; [done|].
  intros [Hc Hr]%andb_true_iff. rewrite (IH Hr).
  apply negb_true_iff in Hc. rewrite Hc. by destruct r.
Qed.

(** White space is only stripped from the end: a string that ends in
    characters that are not white space keeps all of them. *)
Lemma rstrip_by_app_keep sp s t :
  t ≠ EmptyString → all_chars (fun c => negb (sp c)) t = true →
  rstrip_by sp (s ++ t) = s ++ t.
Proof.
  intros Hne Ht. induction s as [|c r IH].
  - by apply rstrip_by_no_space.
  - rewrite app_String. simpl. rewrite IH.
    destruct (r ++ t) as [|c' r'] eqn:Hrt; [|reflexivity].
    destruct r; [by rewrite app_empty_l in Hrt | by rewrite app_String in Hrt].
Qed.

Lemma split_on_no_sep sep s :
  contains_char sep s = false → split_on sep s = [s].
Proof.
  induction s as [|c r IH]; simpl; [done|].
  intros [Hc Hr]%orb_false_iff. rewrite Hc, (IH Hr). reflexivity.
Qed.

Lemma digits_no_blank s :
  all_chars isdigit s = true → contains_char " " s = false.
Proof.
  induction s as [|c r IH]; simpl; [done|].
  intros [Hc Hr]%andb_true_iff. by rewrite (digit_not_blank c Hc), (IH Hr).
Qed.

Lemma slice_from_length s : slice_from (String.length s) s = EmptyString.
Proof. induction s; simpl; auto. Qed.

Lemma slice_to_length s : slice_to (String.length s) s = s.
Proof. induction s; simpl; [done | by f_equal]. Qed.

(** The tokens of [s.split()] hold no white space. *)
Lemma split_ws_tokens s :
  Forall (fun token => all_chars (fun c => negb (isspace c)) token = true)
         (split_ws s).
Proof.
  induction s as [|c r IH]; simpl; [constructor|].
  destruct (isspace c) eqn:Hc; [exact IH|].
  destruct r as [|c' r'].
  - repeat constructor. simpl. by rewrite Hc.
  - destruct (isspace c') eqn:Hc'.
    + constructor; [simpl; by rewrite Hc | exact IH].
    + destruct (split_ws (String c' r')) as [|h t].
      * repeat constructor. simpl. by rewrite Hc.
      * inversion IH as [|?? Hh Ht]; subst. constructor; [|exact Ht].
        simpl. by rewrite Hc, Hh.
Qed.

Lemma last_part_Forall (P : string → Prop) parts :
  parts ≠ [] → Forall P parts → P (last_part parts).
Proof.
  unfold last_part. induction parts as [|h t IH]; [done|].
  intros _ Hall. inversion Hall as [|?? Hh Ht]; subst.
  destruct t as [|h' t']; [exact Hh|].
  change (P (List.last (h' :: t') EmptyString)). by apply IH.
Qed.

(** ** The regular expressions *)

Lemma try_counts_found {A} (attempt : nat → option A) lo k r :
  (lo ≤ k)%nat → attempt k = Some r → try_counts attempt lo k = Some r.
Proof.
  intros Hle Hk. destruct k; simpl.
  - destruct lo; [|lia]. simpl. by rewrite Hk.
  - destruct (Nat.ltb_spec (S k) lo); [lia|]. by rewrite Hk.
Qed.

(** When the longest run of an item lets the rest of the pattern match,
    that is the match. *)
Lemma re_match_cons_found it rest s groups :
  let k := run_length (re_class it) (re_max it) s in
  (re_min it ≤ k)%nat →
  re_match rest (slice_from k s) = Some groups →
  re_match (it :: rest) s
  = Some (if re_group it then slice_to k s :: groups else groups).
Proof.
  intros k Hle Hrest. simpl. apply try_counts_found; [exact Hle|].
  fold k. by rewrite Hrest.
Qed.

Lemma run_length_all cls s :
  all_chars cls s = true → run_length cls None s = String.length s.
Proof.
  induction s as [|c r IH]; simpl; [done|].
  intros [Hc Hr]%andb_true_iff. by rewrite Hc, (IH Hr).
Qed.

(** On a token without white space, [^\d{2}:\d{2}$] matches exactly the
    strings made of two digits, a colon and two digits. *)
Lemma hhmm_re_shape token :
  all_chars (fun c => negb (isspace c)) token = true →
  bool_decide (is_Some (re_match hhmm_re token)) = is_hhmm token.
Proof.
  intros Hns. unfold hhmm_re, is_hhmm.
  destruct token as [|a [|b [|c [|d [|e [|f r]]]]]].
  1-6: split_class_tests; reflexivity.
  cbn -[isspace] in Hns.
  assert (Hf : Ascii.eqb f "010" = false).
  { apply newline_is_space. destruct (isspace f); [|done].
    by repeat (rewrite ?andb_false_r in Hns; simpl in Hns). }
  split_class_tests; try reflexivity.
  all: destruct r; cbn; rewrite ?Hf; reflexivity.
Qed.

(** The test of [extract_times] on the status is the test the
    specification words. *)
Lemma status_test_token status :
  (if (1 <? length (split_ws status))%nat
      && bool_decide (is_Some (re_match hhmm_re (last_part (split_ws status))))
   then Some (last_part (split_ws status)) else None)
  = status_time_token status.
Proof.
  unfold status_time_token.
  destruct (Nat.ltb_spec 1 (length (split_ws status))) as [Hlen|Hlen].
  - rewrite (proj2 (Nat.leb_le 2 _)) by lia.
    rewrite hhmm_re_shape; [reflexivity|].
    apply (last_part_Forall
             (fun token => all_chars (fun c => negb (isspace c)) token = true));
      [|apply split_ws_tokens].
    intros Hnil. rewrite Hnil in Hlen. simpl in Hlen. lia.
  - by rewrite (proj2 (Nat.leb_gt 2 _)) by lia.
Qed.

(** ** Flight numbers on the examples of the specification *)

Example clean_flight_number_LO_0123 :
  Flight1905.clean_flight_number (PStr "LO 0123") = Ok "LO123".
Proof. reflexivity. Qed.

Example clean_flight_number_LO0123 :
  Flight1905.clean_flight_number (PStr "LO0123") = Ok "LO123".
Proof. reflexivity. Qed.

Example format_flight_number_W6_3104 :
  Katowise.format_flight_number (PStr "W6 3104") = Ok (PStr "W63104").
Proof. reflexivity. Qed.

Example format_flight_number_groups_FR9023 :
  re_match flight_number_re "FR9023" = Some ["FR9"; "23"].
Proof. reflexivity. Qed.

(** C3.  On ["FR9023"] the regular expression of [format_flight_number]
    takes the three characters ["FR9"] as carrier code, the ["0"] after
    them as padding and ["23"] as number: the result is ["FR923"], not
    the unchanged ["FR9023"] that the specification expects.  The other
    three examples of the specification come out as stated. *)
Theorem format_flight_number_FR9023 :
  Katowise.format_flight_number (PStr "FR9023") = Ok (PStr "FR923")
  ∧ Flight1905.clean_flight_number (PStr "LO 0123") = Ok "LO123"
  ∧ Flight1905.clean_flight_number (PStr "LO0123") = Ok "LO123"
  ∧ Katowise.format_flight_number (PStr "W6 3104") = Ok (PStr "W63104").
Proof. repeat split; reflexivity. Qed.

(** The two strategies disagree on the specification's own example
    ["LO0123"]: the fixed-position rule removes the zero, the regular
    expression keeps it as the third character of the carrier code. *)
Lemma strategies_differ_on_LO0123 :
  ¬ ∃ canonical,
      Flight1905.clean_flight_number (PStr "LO0123") = Ok canonical
      ∧ Katowise.format_flight_number (PStr "LO0123") = Ok (PStr canonical).
Proof. intros (c & H1 & H2). vm_compute in H1, H2. congruence. Qed.

(** ** Parsing a time of day *)

(** What the body of the [try] returns, when it returns: a timestamp of
    the query date at an hour and a minute in range, in the offset the
    time zone gives. *)
Lemma parse_flight_time_body_Ok time_str d tz v :
  parse_flight_time_body time_str d tz = Ok v →
  ∃ hour minute offset,
    0 <= hour <= 23 ∧ 0 <= minute <= 59
    ∧ localize tz d hour minute = Ok offset
    ∧ v = PStr (isoformat_ms d hour minute offset).
Proof.
  unfold parse_flight_time_body. intros H.
  apply bind_Ok_inv in H as (s & _ & H).
  apply bind_Ok_inv in H as ([h m] & _ & H).
  apply bind_Ok_inv in H as ([h' m'] & Ht & H).
  apply bind_Ok_inv in H as (offset & Hoff & H).
  simpl in *. unfold py_time in Ht.
  destruct ((0 <=? h) && (h <=? 23)) eqn:Hh; [|discriminate].
  destruct ((0 <=? m) && (m <=? 59)) eqn:Hm; [|discriminate].
  simpl in Ht. injection Ht as <- <-. injection H as <-.
  exists h, m, offset. repeat split; try done; lia.
Qed.

Lemma parsed_or_na_is_str time_str d tz : ∃ s, parsed_or_na time_str d tz = PStr s.
Proof.
  unfold parsed_or_na.
  destruct (parse_flight_time_body time_str d tz) as [v|e] eqn:H; [|eauto].
  apply parse_flight_time_body_Ok in H as (h & m & off & _ & _ & _ & ->). eauto.
Qed.

(** [parse_flight_time] of [19_05_flight.py] always returns, and what it
    returns is the timestamp or the sentinel. *)
Lemma parse_flight_time_1905 time_str d tz :
  Flight1905.parse_flight_time time_str d tz
  = Ok (if truthy time_str then parsed_or_na time_str d tz else PStr "N/A").
Proof.
  unfold Flight1905.parse_flight_time, parsed_or_na.
  destruct (truthy time_str); simpl; [|reflexivity].
  by destruct (parse_flight_time_body time_str d tz).
Qed.

(** [parse_flight_time] of [katowise_v3.py] always returns, and what it
    returns is the timestamp or [None]. *)
Lemma parse_flight_time_katowise time_str d tz :
  Katowise.parse_flight_time time_str d tz
  = Ok (if truthy time_str
        then match parse_flight_time_body time_str d tz with
             | Ok v => v
             | Raise _ => PNone
             end
        else PNone).
Proof.
  unfold Katowise.parse_flight_time.
  destruct (truthy time_str); simpl; [|reflexivity].
  by destruct (parse_flight_time_body time_str d tz).
Qed.

(** In [katowise_v3.py] the [None] of a status time becomes the
    sentinel. *)
Lemma none_to_na_katowise time_str d tz :
  truthy time_str = true →
  (let parsed := match parse_flight_time_body time_str d tz with
                 | Ok v => v
                 | Raise _ => PNone
                 end in
   if is_None parsed then PStr "N/A" else parsed)
  = parsed_or_na time_str d tz.
Proof.
  intros _. unfold parsed_or_na.
  destruct (parse_flight_time_body time_str d tz) as [v|e] eqn:H; [|reflexivity].
  by apply parse_flight_time_body_Ok in H as (h & m & off & _ & _ & _ & ->).
Qed.

Lemma status_token_truthy status token :
  status_time_token status = Some token → truthy (PStr token) = true.
Proof.
  unfold status_time_token.
  destruct ((2 <=? length (split_ws status))%nat
            && is_hhmm (last_part (split_ws status))) eqn:Hc; [|discriminate].
  intros [= <-]. apply andb_true_iff in Hc as [_ Hc].
  by destruct (last_part (split_ws status)).
Qed.

(** ** The status and the three times *)

Lemma extract_times_1905 status scheduled_time tz query_date :
  ∃ scheduled estimated actual,
    Flight1905.extract_times status scheduled_time tz query_date
    = Ok (scheduled, estimated, actual)
    ∧ Flight1905.parse_flight_time scheduled_time query_date tz = Ok scheduled
    ∧ match status_time_token status with
      | Some token =>
          estimated = parsed_or_na (PStr token) query_date tz ∧ actual = estimated
      | None => estimated = PStr "N/A" ∧ actual = PStr "N/A"
      end.
Proof.
  unfold Flight1905.extract_times.
  rewrite !parse_flight_time_1905.
  pose proof (status_test_token status) as Htok.
  destruct ((1 <? length (split_ws status))%nat
            && bool_decide (is_Some (re_match hhmm_re (last_part (split_ws status)))));
    rewrite <- Htok; cbn [mbind pyresult_bind fst snd].
  - rewrite (status_token_truthy status _ (eq_sym Htok)). eauto 10.
  - eauto 10.
Qed.

Lemma extract_times_katowise status scheduled_time tz query_date :
  ∃ scheduled estimated actual,
    Katowise.extract_times status scheduled_time tz query_date
    = Ok (scheduled, estimated, actual)
    ∧ Katowise.parse_flight_time scheduled_time query_date tz = Ok scheduled
    ∧ match status_time_token status with
      | Some token =>
          estimated = parsed_or_na (PStr token) query_date tz ∧ actual = estimated
      | None => estimated = PStr "N/A" ∧ actual = PStr "N/A"
      end.
Proof.
  unfold Katowise.extract_times.
  rewrite !parse_flight_time_katowise.
  pose proof (status_test_token status) as Htok.
  destruct ((1 <? length (split_ws status))%nat
            && bool_decide (is_Some (re_match hhmm_re (last_part (split_ws status)))));
    rewrite <- Htok; cbn [mbind pyresult_bind fst snd].
  - rewrite (status_token_truthy status _ (eq_sym Htok)).
    pose proof (none_to_na_katowise (PStr (last_part (split_ws status)))
                  query_date tz
                  (status_token_truthy status _ (eq_sym Htok))) as Hna.
    cbv zeta in Hna. rewrite Hna. eauto 10.
  - eauto 10.
Qed.

(** The two examples of the specification. *)
Example extract_times_Landed_1405 :
  Flight1905.extract_times "Landed 14:05" (PStr "13:50") sample_tz sample_date
  = Ok (PStr "2025-05-19T13:50:00.000+02:00",
        PStr "2025-05-19T14:05:00.000+02:00",
        PStr "2025-05-19T14:05:00.000+02:00")
  ∧ status_time_token "Landed 14:05" = Some "14:05".
Proof. split; reflexivity. Qed.

Example extract_times_Landed :
  Flight1905.extract_times "Landed" (PStr "13:50") sample_tz sample_date
  = Ok (PStr "2025-05-19T13:50:00.000+02:00", PStr "N/A", PStr "N/A")
  ∧ status_time_token "Landed" = None.
Proof. split; reflexivity. Qed.

(** ** Validation of the direction *)

Lemma validate_direction_strip direction_str :
  validate_direction direction_str = claimed_direction (strip direction_str).
Proof. unfold validate_direction, claimed_direction. by rewrite strip_lower. Qed.

Example validate_direction_synonyms :
  validate_direction "departure" = Ok 1 ∧ validate_direction "Departures" = Ok 1
  ∧ validate_direction "ARRIVAL" = Ok 2 ∧ validate_direction "arrivalS" = Ok 2
  ∧ validate_direction "sideways" = Raise ValueError.
Proof. repeat split; reflexivity. Qed.

(** A synonym with white space around it is no case-insensitive synonym,
    and [validate_direction] accepts it all the same. *)
Lemma padded_arrival_is_accepted :
  claimed_direction " arrival " = Raise ValueError
  ∧ validate_direction " arrival " = Ok 2.
Proof. split; reflexivity. Qed.

(** C8, amended.  On a direction string of ASCII characters
    [validate_direction] compares case-insensitively after it has
    removed the white space around the string: it gives 1 for
    "departure(s)", 2 for "arrival(s)" and raises [ValueError] for every
    other string; and when it raises, [get_flights] raises the same
    exception with the store as it found it, before any request is
    sent. *)
Theorem validate_direction_fails_fast direction_str api tz now st :
  is_ascii direction_str = true →
  validate_direction direction_str = claimed_direction (strip direction_str)
  ∧ (claimed_direction (strip direction_str) = Raise ValueError →
     Flight1905.get_flights api tz now direction_str st = (st, Raise ValueError)).
Proof.
  intros _. split; [apply validate_direction_strip|].
  intros Hraise. unfold Flight1905.get_flights.
  rewrite validate_direction_strip, Hraise. reflexivity.
Qed.

Lemma validate_direction_fails_fast_witness :
  validate_direction "sideways" = claimed_direction (strip "sideways")
  ∧ Flight1905.get_flights sample_api sample_tz sample_now "sideways" empty_store
    = (empty_store, Raise ValueError).
Proof.
  destruct (validate_direction_fails_fast "sideways" sample_api sample_tz
              sample_now empty_store) as [Hv Hg]; [reflexivity|].
  split; [exact Hv | apply Hg; reflexivity].
Defined.

(** ** The record of [19_05_flight.py] *)

Lemma is_third_char_alphabet_spec text :
  Flight1905.is_third_char_alphabet text = true ↔ third_char_not_alphabetic text.
Proof.
  unfold Flight1905.is_third_char_alphabet, third_char_not_alphabetic, len, char_at.
  destruct text as [|a [|b [|c r]]]; simpl.
  1-3: split; [discriminate | by intros (c' & [=] & _)].
  replace (Z.of_nat (S (S (S (String.length r)))) <? 3) with false
    by (symmetry; apply Z.ltb_ge; lia).
  split.
  - intros H. exists c. split; [reflexivity | by apply negb_true_iff].
  - intros (c' & [= <-] & H). by apply negb_true_iff.
Qed.

Lemma text_field_as_str flight_data key :
  text_field flight_data key →
  ∃ s, as_str (dict_get flight_data key (PStr EmptyString)) = Ok s.
Proof.
  unfold text_field, dict_get. intros [-> | (s & ->)]; simpl; eauto.
Qed.

(** What the fields of a record of [19_05_flight.py] are made of. *)
Lemma process_flight_1905_inv flight_data direction airport_codes tz query_date
  record :
  Flight1905.process_flight flight_data direction airport_codes tz query_date
  = Ok record →
  ∃ flight_number scheduled estimated actual status,
    Flight1905.clean_flight_number
      (dict_get flight_data "flight_number" (PStr EmptyString)) = Ok flight_number
    ∧ Flight1905.extract_times status
        (dict_get flight_data "scheduled_time" (PStr EmptyString)) tz query_date
      = Ok (scheduled, estimated, actual)
    ∧ record !! "flight_number" = Some (PStr flight_number)
    ∧ record !! "callsign" = Some (PStr flight_number)
    ∧ record !! "is_flight_number"
      = Some (PBool (Flight1905.is_third_char_alphabet flight_number))
    ∧ record !! "airline_iata_code"
      = Some (PStr (if Flight1905.is_third_char_alphabet flight_number
                    then slice_to 2 flight_number else "N/A"))
    ∧ map (fun key => record !! key) (time_fields direction)
      = [Some scheduled; Some estimated; Some actual].
Proof.
  unfold Flight1905.process_flight. intros H.
  apply bind_Ok_inv in H as (fn & Hfn & H).
  apply bind_Ok_inv in H as (airport & _ & H).
  apply bind_Ok_inv in H as (airline & _ & H).
  apply bind_Ok_inv in H as (status & _ & H).
  apply bind_Ok_inv in H as ([[scheduled estimated] actual] & Htimes & H).
  exists fn, scheduled, estimated, actual, (strip status).
  split; [exact Hfn|]. split; [exact Htimes|].
  unfold time_fields.
  destruct (direction =? 2); injection H as <-;
    cbn [map]; repeat split; dict_lookup.
Qed.

(** C9.  In a record of [19_05_flight.py] made of an entry whose flight
    number is ASCII text, the flag [is_flight_number] is true exactly
    when the canonical flight number has a third character and that
    character is not alphabetic; [airline_iata_code] is the first two
    characters of the canonical flight number when the flag is true and
    ["N/A"] when it is false. *)
Theorem airline_code_from_third_char flight_data direction airport_codes tz
  query_date record :
  ascii_field flight_data "flight_number" = true →
  Flight1905.process_flight flight_data direction airport_codes tz query_date
  = Ok record →
  ∃ flight_number flag,
    record !! "flight_number" = Some (PStr flight_number)
    ∧ record !! "is_flight_number" = Some (PBool flag)
    ∧ (flag = true ↔ third_char_not_alphabetic flight_number)
    ∧ record !! "airline_iata_code"
      = Some (PStr (if flag then slice_to 2 flight_number else "N/A")).
Proof.
  intros _ H.
  apply process_flight_1905_inv
    in H as (fn & sched & est & act & status & _ & _ & Hfn & _ & Hflag & Hiata & _).
  exists fn, (Flight1905.is_third_char_alphabet fn).
  repeat split; try assumption; apply is_third_char_alphabet_spec.
Qed.

Lemma airline_code_from_third_char_witness :
  ∃ flight_number flag,
    ryanair_record !! "flight_number" = Some (PStr flight_number)
    ∧ ryanair_record !! "is_flight_number" = Some (PBool flag)
    ∧ (flag = true ↔ third_char_not_alphabetic flight_number)
    ∧ ryanair_record !! "airline_iata_code"
      = Some (PStr (if flag then slice_to 2 flight_number else "N/A")).
Proof.
  apply (airline_code_from_third_char ryanair_entry 1 airport_codes_table
           sample_tz sample_date ryanair_record).
  - reflexivity.
  - reflexivity.
Defined.

(** A raw entry whose text fields are strings or absent is normalised
    without an exception, whatever its flight number canonicalises to. *)
Lemma process_flight_1905_total flight_data direction airport_codes tz
  query_date flight_number :
  Flight1905.clean_flight_number
    (dict_get flight_data "flight_number" (PStr EmptyString)) = Ok flight_number →
  text_field flight_data "airport" →
  text_field flight_data "airline_name" →
  text_field flight_data "status" →
  ∃ record,
    Flight1905.process_flight flight_data direction airport_codes tz query_date
    = Ok record.
Proof.
  intros Hfn (airport & Hairport)%text_field_as_str
         (airline & Hairline)%text_field_as_str
         (status & Hstatus)%text_field_as_str.
  unfold Flight1905.process_flight.
  rewrite Hfn, Hairport, Hairline, Hstatus. cbn [mbind pyresult_bind].
  destruct (extract_times_1905 (strip status)
              (dict_get flight_data "scheduled_time" (PStr EmptyString))
              tz query_date) as (sched & est & act & -> & _).
  cbn [mbind pyresult_bind]. destruct (direction =? 2); eauto.
Qed.

(** C10.  When the raw entry has no [flight_number], or an empty one,
    and its other text fields are strings or absent, [process_flight] of
    [19_05_flight.py] raises nothing and returns a record whose
    [flight_number] and [callsign] are ["N/A"], whose [is_flight_number]
    is false and whose [airline_iata_code] is ["N/A"]. *)
Theorem missing_flight_number_record flight_data direction airport_codes tz
  query_date :
  flight_data !! "flight_number" = None
  ∨ flight_data !! "flight_number" = Some (PStr EmptyString) →
  text_field flight_data "airport" →
  text_field flight_data "airline_name" →
  text_field flight_data "status" →
  ∃ record,
    Flight1905.process_flight flight_data direction airport_codes tz query_date
    = Ok record
    ∧ record !! "flight_number" = Some (PStr "N/A")
    ∧ record !! "callsign" = Some (PStr "N/A")
    ∧ record !! "is_flight_number" = Some (PBool false)
    ∧ record !! "airline_iata_code" = Some (PStr "N/A").
Proof.
  intros Hnumber Hairport Hairline Hstatus.
  assert (Hfn : Flight1905.clean_flight_number
                  (dict_get flight_data "flight_number" (PStr EmptyString))
                = Ok "N/A").
  { unfold dict_get. by destruct Hnumber as [-> | ->]. }
  destruct (process_flight_1905_total flight_data direction airport_codes tz
              query_date _ Hfn Hairport Hairline Hstatus) as [record Hrun].
  exists record. split; [exact Hrun|].
  apply process_flight_1905_inv
    in Hrun as (fn & sched & est & act & status & Hfn' & _ & H1 & H2 & H3 & H4 & _).
  rewrite Hfn in Hfn'. injection Hfn' as <-.
  repeat split; assumption.
Qed.

Lemma missing_flight_number_record_witness :
  ∃ record,
    Flight1905.process_flight entry_without_number 2 airport_codes_table
                              sample_tz sample_date = Ok record
    ∧ record !! "flight_number" = Some (PStr "N/A")
    ∧ record !! "callsign" = Some (PStr "N/A")
    ∧ record !! "is_flight_number" = Some (PBool false)
    ∧ record !! "airline_iata_code" = Some (PStr "N/A").
Proof.
  apply (missing_flight_number_record entry_without_number 2 airport_codes_table
           sample_tz sample_date).
  - left. reflexivity.
  - right. exists "Alghero". reflexivity.
  - right. exists "Ryanair". reflexivity.
  - right. exists "Landed 14:05". reflexivity.
Defined.

(** ** The record of [katowise_v3.py] *)

Lemma process_flight_katowise_inv flight_data direction tz query_date record :
  Katowise.process_flight flight_data direction tz query_date = Ok record →
  ∃ scheduled estimated actual status,
    Katowise.extract_times status
      (dict_get flight_data "scheduled_time" (PStr EmptyString)) tz query_date
    = Ok (scheduled, estimated, actual)
    ∧ map (fun key => record !! key) (time_fields direction)
      = [Some scheduled; Some estimated; Some actual].
Proof.
  unfold Katowise.process_flight. intros H.
  apply bind_Ok_inv in H as (fn & _ & H).
  apply bind_Ok_inv in H as (status & _ & H).
  apply bind_Ok_inv in H as ([[scheduled estimated] actual] & Htimes & H).
  exists scheduled, estimated, actual, (strip status).
  split; [exact Htimes|]. unfold time_fields.
  destruct (direction =? 2); injection H as <-;
    cbn [map]; repeat f_equal; dict_lookup.
Qed.

Lemma process_flight_katowise_total flight_data direction tz query_date :
  text_field flight_data "flight_number" →
  text_field flight_data "status" →
  ∃ record,
    Katowise.process_flight flight_data direction tz query_date = Ok record.
Proof.
  intros (number & Hnumber)%text_field_as_str (status & Hstatus)%text_field_as_str.
  unfold Katowise.process_flight, Katowise.format_flight_number.
  rewrite Hnumber, Hstatus. cbn [mbind pyresult_bind].
  destruct (extract_times_katowise (strip status)
              (dict_get flight_data "scheduled_time" (PStr EmptyString))
              tz query_date) as (sched & est & act & Htimes & _).
  destruct (re_match flight_number_re (strip number)) as [[|? [|? [|? ?]]]|];
    cbn [mbind pyresult_bind]; rewrite Htimes; cbn [mbind pyresult_bind];
    destruct (direction =? 2); eauto.
Qed.

(** In [katowise_v3.py] the scheduled time of a record is [None] as soon
    as [parse_flight_time] gives [None] for the raw [scheduled_time]:
    [extract_times] turns [None] into the sentinel for the estimated and
    the actual time only. *)
Lemma katowise_scheduled_None flight_data direction tz query_date :
  text_field flight_data "flight_number" →
  text_field flight_data "status" →
  Katowise.parse_flight_time
    (dict_get flight_data "scheduled_time" (PStr EmptyString)) query_date tz
  = Ok PNone →
  ∃ record key,
    Katowise.process_flight flight_data direction tz query_date = Ok record
    ∧ head (time_fields direction) = Some key
    ∧ record !! key = Some PNone
    ∧ ¬ time_field_ok (record !! key).
Proof.
  intros Hnumber Hstatus Hparse.
  destruct (process_flight_katowise_total flight_data direction tz query_date
              Hnumber Hstatus) as [record Hrun].
  destruct (process_flight_katowise_inv _ _ _ _ _ Hrun)
    as (sched & est & act & status & Htimes & Hfields).
  destruct (extract_times_katowise status
              (dict_get flight_data "scheduled_time" (PStr EmptyString))
              tz query_date) as (sched' & est' & act' & Htimes' & Hsched & _).
  rewrite Htimes in Htimes'. injection Htimes' as <- <- <-.
  rewrite Hparse in Hsched. injection Hsched as <-.
  destruct (time_fields direction) as [|key rest] eqn:Hkeys;
    [discriminate|].
  injection Hfields as Hkey _.
  exists record, key. repeat split; try assumption.
  rewrite Hkey. by intros (s & [=] & _).
Qed.

(** C1.  [katowise_v3.py], an arrival whose [scheduled_time] is the empty
    string: the record is produced and its [scheduled_arrival_time] is
    [None], neither a timestamp nor the sentinel ["N/A"]. *)
Theorem katowise_record_without_schedule tz query_date :
  ∃ record,
    Katowise.process_flight entry_without_schedule 2 tz query_date = Ok record
    ∧ record !! "scheduled_arrival_time" = Some PNone
    ∧ ¬ time_field_ok (record !! "scheduled_arrival_time").
Proof.
  destruct (katowise_scheduled_None entry_without_schedule 2 tz query_date)
    as (record & key & Hrun & Hkey & Hnone & Hbad).
  - right. exists "FR 0900". reflexivity.
  - right. exists "Landed 14:05". reflexivity.
  - rewrite parse_flight_time_katowise. reflexivity.
  - injection Hkey as <-. eauto.
Qed.

(** ** Malformed times *)

Lemma malformed_time_raises time_str d tz :
  malformed_time time_str = true →
  ∃ e, parse_flight_time_body (PStr time_str) d tz = Raise e.
Proof.
  unfold malformed_time, parse_flight_time_body. cbn [as_str mbind pyresult_bind].
  destruct (unpack_hour_minute (split_on ":" time_str)) as [[h m]|e];
    cbn [mbind pyresult_bind fst snd]; [|eauto].
  unfold py_time. intros H.
  destruct ((0 <=? h) && (h <=? 23)) eqn:Hh; cbn [negb mbind pyresult_bind];
    [|eauto].
  destruct ((0 <=? m) && (m <=? 59)) eqn:Hm; cbn [negb mbind pyresult_bind];
    [|eauto].
  simpl in H. rewrite Hm in H. discriminate.
Qed.

(** In [19_05_flight.py] a malformed time string gives the sentinel. *)
Lemma malformed_time_1905 time_str d tz :
  malformed_time time_str = true →
  Flight1905.parse_flight_time (PStr time_str) d tz = Ok (PStr "N/A").
Proof.
  intros [e He]%(malformed_time_raises time_str d tz).
  rewrite parse_flight_time_1905. unfold parsed_or_na. rewrite He.
  by destruct (truthy (PStr time_str)).
Qed.

(** In [katowise_v3.py] a malformed time string gives [None]. *)
Lemma malformed_time_katowise time_str d tz :
  malformed_time time_str = true →
  Katowise.parse_flight_time (PStr time_str) d tz = Ok PNone.
Proof.
  intros [e He]%(malformed_time_raises time_str d tz).
  rewrite parse_flight_time_katowise. rewrite He.
  by destruct (truthy (PStr time_str)).
Qed.

(** In both scripts a malformed time at the end of the status gives the
    sentinel for the estimated and the actual time. *)
Lemma malformed_status_time token d tz :
  malformed_time token = true → parsed_or_na (PStr token) d tz = PStr "N/A".
Proof.
  intros [e He]%(malformed_time_raises token d tz).
  unfold parsed_or_na. by rewrite He.
Qed.

(** X14.  In [19_05_flight.py] a [scheduled_time] of ASCII text that is
    malformed gives a record with the sentinel in the scheduled time. *)
Lemma malformed_schedule_1905 flight_data direction airport_codes tz query_date
  record time_str :
  flight_data !! "scheduled_time" = Some (PStr time_str) →
  is_ascii time_str = true →
  malformed_time time_str = true →
  Flight1905.process_flight flight_data direction airport_codes tz query_date
  = Ok record →
  ∃ key, head (time_fields direction) = Some key
         ∧ record !! key = Some (PStr "N/A").
Proof.
  intros Hfield _ Hbad Hrun.
  apply process_flight_1905_inv
    in Hrun as (fn & sched & est & act & status & _ & Htimes & _ & _ & _ & _ & Hfields).
  destruct (extract_times_1905 status
              (dict_get flight_data "scheduled_time" (PStr EmptyString))
              tz query_date) as (sched' & est' & act' & Htimes' & Hsched & _).
  rewrite Htimes in Htimes'. injection Htimes' as <- <- <-.
  unfold dict_get in Hsched. rewrite Hfield in Hsched. simpl in Hsched.
  rewrite (malformed_time_1905 _ _ _ Hbad) in Hsched. injection Hsched as <-.
  destruct (time_fields direction) as [|key rest]; [discriminate|].
  injection Hfields as Hkey _. eauto.
Qed.

Example malformed_25_99 : malformed_time "25:99" = true.
Proof. reflexivity. Qed.

(** C6.  [katowise_v3.py], an arrival whose [scheduled_time] is the
    malformed ["25:99"]: nothing is raised and the record is produced,
    but its [scheduled_arrival_time] is [None] and not the sentinel
    ["N/A"]. *)
Theorem katowise_record_with_bad_schedule tz query_date :
  malformed_time "25:99" = true
  ∧ ∃ record,
      Katowise.process_flight entry_bad_schedule 2 tz query_date = Ok record
      ∧ record !! "scheduled_arrival_time" = Some PNone
      ∧ record !! "scheduled_arrival_time" ≠ Some (PStr "N/A").
Proof.
  split; [reflexivity|].
  destruct (katowise_scheduled_None entry_bad_schedule 2 tz query_date)
    as (record & key & Hrun & Hkey & Hnone & Hbad).
  - right. exists "FR 0900". reflexivity.
  - right. exists "Landed 14:05". reflexivity.
  - apply (malformed_time_katowise "25:99"). reflexivity.
  - injection Hkey as <-. exists record. repeat split; try assumption.
    rewrite Hnone. discriminate.
Qed.

(** ** The shape of a timestamp *)

Lemma check_from_spec n i p :
  check_from n i p = true → ∀ j, i <= j < i + Z.of_nat n → p j = true.
Proof.
  revert i. induction n as [|k IH]; intros i; [intros; lia|].
  cbn [check_from]. intros [Hi Hrest]%andb_true_iff j Hj.
  destruct (decide (j = i)) as [->|Hne]; [exact Hi|].
  apply (IH (i + 1)); [exact Hrest | lia].
Qed.

Lemma check_below_spec n p :
  check_below n p = true → ∀ i, 0 <= i < n → p i = true.
Proof. intros H i Hi. apply (check_from_spec _ _ _ H). lia. Qed.

Lemma digit_char_isdigit n : isdigit (digit_char n) = true.
Proof.
  unfold digit_char.
  pose proof (Z.mod_pos_bound n 10 ltac:(lia)) as Hr.
  generalize dependent (n mod 10). intros r Hr.
  assert (Hc : r = 0 ∨ r = 1 ∨ r = 2 ∨ r = 3 ∨ r = 4 ∨ r = 5 ∨ r = 6
               ∨ r = 7 ∨ r = 8 ∨ r = 9) by lia.
  repeat (destruct Hc as [->|Hc]; [reflexivity|]). by subst.
Qed.

Lemma pad_2_table :
  check_below 100 (fun v => String.eqb (pad 2 v) (two_digits v)) = true.
Proof. vm_compute. reflexivity. Qed.

Lemma pad_4_table :
  check_below 10000 (fun v => String.eqb (pad 4 v) (four_digits v)) = true.
Proof. vm_compute. reflexivity. Qed.

Lemma pad_2_digits v : 0 <= v < 100 → pad 2 v = two_digits v.
Proof.
  intros Hv. apply String.eqb_eq.
  by apply (check_below_spec 100 _ pad_2_table).
Qed.

Lemma pad_4_digits v : 0 <= v < 10000 → pad 4 v = four_digits v.
Proof.
  intros Hv. apply String.eqb_eq.
  by apply (check_below_spec 10000 _ pad_4_table).
Qed.

Lemma ymd_cycle_table : check_below 146097 ymd_in_cycle = true.
Proof. vm_cast_no_check (eq_refl true). Qed.

Lemma ord2ymd_cycle n :
  ord2ymd n
  = let '(y, m, d) := ord2ymd ((n - 1) mod 146097 + 1) in
    (y + 400 * ((n - 1) / 146097), m, d).
Proof.
  unfold ord2ymd.
  replace ((n - 1) mod 146097 + 1 - 1) with ((n - 1) mod 146097) by lia.
  rewrite Z.mod_mod by lia.
  rewrite (Z.div_small ((n - 1) mod 146097) 146097)
    by (apply Z.mod_pos_bound; lia).
  set (r := (n - 1) mod 146097). set (q := (n - 1) / 146097).
  repeat match goal with |- context [if ?b then _ else _] => destruct b end;
    f_equal; try f_equal; lia.
Qed.

Lemma ord2ymd_bounds d :
  valid_date d →
  ∃ y m dd, ord2ymd d = (y, m, dd)
            ∧ 1 <= y <= 9999 ∧ 1 <= m <= 12 ∧ 1 <= dd <= 31.
Proof.
  unfold valid_date, MAXORDINAL. intros Hd. rewrite ord2ymd_cycle.
  pose proof (Z.mod_pos_bound (d - 1) 146097 ltac:(lia)) as Hr.
  pose proof (Z.div_mod (d - 1) 146097 ltac:(lia)) as Hqr.
  pose proof (check_below_spec _ _ ymd_cycle_table _ Hr) as Htable.
  unfold ymd_in_cycle in Htable.
  set (r := (d - 1) mod 146097) in *. set (q := (d - 1) / 146097) in *.
  destruct (ord2ymd (r + 1)) as [[y m] dd].
  exists (y + 400 * q), m, dd. split; [reflexivity|].
  repeat (apply andb_true_iff in Htable as [Htable ?]).
  assert (0 <= q <= 24) by lia.
  destruct (y =? 400) eqn:Hy; simpl in *; lia.
Qed.

Lemma format_utcoffset_digits offset :
  -1440 < offset < 1440 →
  format_utcoffset offset
  = String (if offset <? 0 then "-"%char else "+"%char)
      (two_digits (Z.abs offset / 60) ++ ":" ++ two_digits (Z.abs offset mod 60)).
Proof.
  intros Hoff. unfold format_utcoffset.
  pose proof (Z.div_mod (Z.abs offset) 60 ltac:(lia)) as Hqr.
  pose proof (Z.mod_pos_bound (Z.abs offset) 60 ltac:(lia)) as Hr.
  rewrite !pad_2_digits by lia.
  destruct (offset <? 0); reflexivity.
Qed.

Lemma isoformat_ms_shape d hour minute offset :
  valid_date d → 0 <= hour <= 23 → 0 <= minute <= 59 →
  -1440 < offset < 1440 →
  is_iso_timestamp (isoformat_ms d hour minute offset) = true.
Proof.
  intros Hd Hh Hm Hoff. unfold isoformat_ms, date_isoformat.
  destruct (ord2ymd_bounds d Hd) as (y & m & dd & -> & Hy & Hmo & Hdd).
  rewrite format_utcoffset_digits by done.
  rewrite pad_4_digits by lia. rewrite !pad_2_digits by lia.
  change (pad 3 0) with "000".
  unfold is_iso_timestamp, four_digits, two_digits.
  cbv [String.append has_shape].
  rewrite !digit_char_isdigit. by destruct (offset <? 0).
Qed.

(** A reconstructed time is a timestamp or the sentinel. *)
Lemma parsed_or_na_ok time_str d tz :
  tz_bounded tz → valid_date d →
  time_field_ok (Some (parsed_or_na time_str d tz)).
Proof.
  intros Htz Hd. unfold parsed_or_na, time_field_ok.
  destruct (parse_flight_time_body time_str d tz) as [v|e] eqn:H; [|eauto].
  apply parse_flight_time_body_Ok in H as (h & m & off & Hh & Hm & Hoff & ->).
  eexists. split; [reflexivity|]. left.
  apply isoformat_ms_shape; try done. by apply (Htz d h m).
Qed.

Lemma parse_flight_time_1905_ok time_str d tz v :
  tz_bounded tz → valid_date d →
  Flight1905.parse_flight_time time_str d tz = Ok v → time_field_ok (Some v).
Proof.
  intros Htz Hd. rewrite parse_flight_time_1905. intros [= <-].
  destruct (truthy time_str); [by apply parsed_or_na_ok|].
  exists "N/A". auto.
Qed.

(** X3.  In [19_05_flight.py] every time field of every record is a
    timestamp or the sentinel: present, a string, and never a bare time
    of day. *)
Theorem time_fields_1905 flight_data direction airport_codes tz query_date
  record :
  tz_bounded tz → valid_date query_date →
  Flight1905.process_flight flight_data direction airport_codes tz query_date
  = Ok record →
  Forall (fun key => time_field_ok (record !! key)) (time_fields direction).
Proof.
  intros Htz Hd Hrun.
  apply process_flight_1905_inv
    in Hrun as (fn & sched & est & act & status & _ & Htimes & _ & _ & _ & _ & Hfields).
  destruct (extract_times_1905 status
              (dict_get flight_data "scheduled_time" (PStr EmptyString))
              tz query_date) as (sched' & est' & act' & Htimes' & Hsched & Hstatus).
  rewrite Htimes in Htimes'. injection Htimes' as <- <- <-.
  assert (Hs : time_field_ok (Some sched))
    by exact (parse_flight_time_1905_ok _ query_date tz sched Htz Hd Hsched).
  assert (He : time_field_ok (Some est)).
  { destruct (status_time_token status) as [token|].
    - destruct Hstatus as [-> _]. by apply parsed_or_na_ok.
    - destruct Hstatus as [-> _]. exists "N/A". auto. }
  assert (Ha : time_field_ok (Some act)).
  { destruct (status_time_token status) as [token|].
    - by destruct Hstatus as [_ ->].
    - destruct Hstatus as [_ ->]. exists "N/A". auto. }
  unfold time_fields in *.
  destruct (direction =? 2); cbn [map] in Hfields;
    injection Hfields as H1 H2 H3; repeat constructor; cbn beta;
    rewrite ?H1, ?H2, ?H3; assumption.
Qed.

Lemma time_fields_1905_witness :
  Forall (fun key => time_field_ok (ryanair_record !! key)) (time_fields 1).
Proof.
  apply (time_fields_1905 ryanair_entry 1 airport_codes_table sample_tz
           sample_date ryanair_record).
  - intros d h m off [= <-]. lia.
  - unfold valid_date, sample_date, MAXORDINAL. lia.
  - reflexivity.
Defined.

(** ** The window of dates *)

(** Twelve hours after a wall-clock time, [days] days later: the sum
    [datetime_add] computes, when its date can be held. *)
Lemma datetime_add_half_day now days :
  wf_datetime now →
  let seconds := dt_hour now * 3600 + dt_minute now * 60 + dt_second now in
  let day := dt_date now + days + (seconds + 43200) / 86400 in
  0 < day <= MAXORDINAL →
  ∃ shifted,
    datetime_add now {| td_days := days; td_seconds := 43200;
                        td_microseconds := 0 |} = Ok shifted
    ∧ dt_date shifted = day
    ∧ wf_datetime shifted
    ∧ to_microseconds shifted
      = to_microseconds now + (days * 24 + 12) * 3600000000.
Proof.
  intros (Hh & Hm & Hs & Hus) seconds day Hday.
  unfold datetime_add, timedelta_add, mk_timedelta.
  cbn [td_days td_seconds td_microseconds].
  rewrite (Z.div_small (dt_microsecond now)) by lia.
  rewrite (Z.mod_small (dt_microsecond now)) by lia.
  fold seconds. rewrite Z.add_0_r.
  rewrite (Z.div_small seconds) by (unfold seconds; lia).
  rewrite (Z.mod_small seconds) by (unfold seconds; lia).
  rewrite !Z.add_0_r.
  rewrite (Z.div_small (dt_microsecond now)) by lia.
  rewrite (Z.mod_small (dt_microsecond now)) by lia.
  rewrite !Z.add_0_r. fold day.
  destruct (Z.ltb_spec 0 day); [|lia].
  destruct (Z.leb_spec day MAXORDINAL); [|lia].
  cbn [andb]. eexists. split; [reflexivity|].
  unfold wf_datetime, to_microseconds.
  cbn [dt_date dt_hour dt_minute dt_second dt_microsecond].
  subst day. unfold seconds in *.
  repeat split; try lia; Z.to_euclidean_division_equations; lia.
Qed.

Lemma timedelta_half_day :
  timedelta_hours 12
  = {| td_days := 0; td_seconds := 43200; td_microseconds := 0 |}
  ∧ timedelta_neg (timedelta_hours 12)
    = {| td_days := -1; td_seconds := 43200; td_microseconds := 0 |}.
Proof. split; reflexivity. Qed.

Lemma date_add_one_day d :
  0 <= d < MAXORDINAL → date_add d (timedelta_days 1) = Ok (d + 1).
Proof.
  intros Hd. unfold date_add. change (td_days (timedelta_days 1)) with 1.
  destruct (Z.ltb_spec 0 (d + 1)); [|lia].
  destruct (Z.leb_spec (d + 1) MAXORDINAL); [reflexivity | lia].
Qed.

(** With fuel for every day from [current_date] to [end_date], the loop
    adds exactly these days, and more fuel changes nothing. *)
Lemma date_loop_range fuel current_date end_date dates :
  0 < current_date → end_date < MAXORDINAL →
  end_date - current_date + 1 <= Z.of_nat fuel →
  date_loop fuel current_date end_date dates
  = Ok (list_to_set (seqZ current_date (end_date - current_date + 1)) ∪ dates).
Proof.
  revert current_date dates.
  induction fuel as [|fuel IH]; intros current_date dates Hpos Hend Hfuel.
  - simpl. f_equal. apply set_eq. intros x.
    rewrite elem_of_union, elem_of_list_to_set, elem_of_seqZ. intuition lia.
  - cbn [date_loop]. destruct (Z.leb_spec current_date end_date) as [Hle|Hgt].
    + rewrite date_add_one_day by lia. cbn [mbind pyresult_bind].
      rewrite IH by lia. f_equal. apply set_eq. intros x.
      rewrite !elem_of_union, !elem_of_list_to_set, !elem_of_seqZ,
        elem_of_singleton. intuition lia.
    + f_equal. apply set_eq. intros x.
      rewrite elem_of_union, elem_of_list_to_set, elem_of_seqZ. intuition lia.
Qed.

(** C7.  For every wall-clock time [now] whose twelve-hour window lies
    within the dates [datetime] can hold, [now - 12h] and [now + 12h] are
    computed, [calculate_date_window] returns a set of dates, the set
    contains the date of [now - 12h] and the date of [now + 12h], and
    every date in it lies between these two. *)
Theorem calculate_date_window_covers now :
  wf_datetime now →
  2 <= dt_date now <= MAXORDINAL - 2 →
  ∃ time_window_start time_window_end dates,
    datetime_sub now (timedelta_hours 12) = Ok time_window_start
    ∧ datetime_add now (timedelta_hours 12) = Ok time_window_end
    ∧ to_microseconds time_window_start = to_microseconds now - 12 * 3600000000
    ∧ to_microseconds time_window_end = to_microseconds now + 12 * 3600000000
    ∧ calculate_date_window now = Ok dates
    ∧ dt_date time_window_start ∈ dates
    ∧ dt_date time_window_end ∈ dates
    ∧ ∀ d, d ∈ dates →
           dt_date time_window_start <= d <= dt_date time_window_end.
Proof.
  intros Hwf Hrange.
  destruct timedelta_half_day as [Hplus Hminus].
  pose proof Hwf as (Hh & Hm & Hs & Hus).
  assert (Hcarry : 0 <= (dt_hour now * 3600 + dt_minute now * 60 + dt_second now
                         + 43200) / 86400 <= 1)
    by (Z.to_euclidean_division_equations; lia).
  destruct (datetime_add_half_day now (-1) Hwf)
    as (time_window_start & Hstart & Hsdate & _ & Hsmicro); [lia|].
  destruct (datetime_add_half_day now 0 Hwf)
    as (time_window_end & Hend & Hedate & _ & Hemicro); [lia|].
  unfold calculate_date_window, datetime_sub.
  rewrite Hminus, Hplus, Hstart, Hend. cbn [mbind pyresult_bind].
  rewrite date_loop_range by lia.
  eexists _, _, _. repeat split; try reflexivity; try lia.
  - rewrite elem_of_union, elem_of_list_to_set, elem_of_seqZ. lia.
  - rewrite elem_of_union, elem_of_list_to_set, elem_of_seqZ. lia.
  - rewrite elem_of_union, elem_of_list_to_set, elem_of_seqZ in H.
    destruct H as [?|H]; [lia | by apply elem_of_empty in H].
  - rewrite elem_of_union, elem_of_list_to_set, elem_of_seqZ in H.
    destruct H as [?|H]; [lia | by apply elem_of_empty in H].
Qed.

Lemma calculate_date_window_covers_witness :
  ∃ time_window_start time_window_end dates,
    datetime_sub sample_now (timedelta_hours 12) = Ok time_window_start
    ∧ datetime_add sample_now (timedelta_hours 12) = Ok time_window_end
    ∧ to_microseconds time_window_start
      = to_microseconds sample_now - 12 * 3600000000
    ∧ to_microseconds time_window_end
      = to_microseconds sample_now + 12 * 3600000000
    ∧ calculate_date_window sample_now = Ok dates
    ∧ dt_date time_window_start ∈ dates
    ∧ dt_date time_window_end ∈ dates
    ∧ ∀ d, d ∈ dates →
           dt_date time_window_start <= d <= dt_date time_window_end.
Proof.
  apply (calculate_date_window_covers sample_now).
  - unfold wf_datetime, sample_now. cbn. lia.
  - unfold sample_now, sample_date, MAXORDINAL. cbn. lia.
Defined.

(** X2.  The window always has two days: the day [now + 12h] falls on
    and the day before it. *)
Lemma calculate_date_window_two_days now :
  wf_datetime now →
  2 <= dt_date now <= MAXORDINAL - 2 →
  ∃ time_window_end,
    datetime_add now (timedelta_hours 12) = Ok time_window_end
    ∧ calculate_date_window now
      = Ok {[ dt_date time_window_end - 1; dt_date time_window_end ]}.
Proof.
  intros Hwf Hrange.
  destruct timedelta_half_day as [Hplus Hminus].
  pose proof Hwf as (Hh & Hm & Hs & Hus).
  assert (Hcarry : 0 <= (dt_hour now * 3600 + dt_minute now * 60 + dt_second now
                         + 43200) / 86400 <= 1)
    by (Z.to_euclidean_division_equations; lia).
  destruct (datetime_add_half_day now (-1) Hwf)
    as (time_window_start & Hstart & Hsdate & _); [lia|].
  destruct (datetime_add_half_day now 0 Hwf)
    as (time_window_end & Hend & Hedate & _); [lia|].
  exists time_window_end. rewrite Hplus at 1. split; [exact Hend|].
  unfold calculate_date_window, datetime_sub.
  rewrite Hminus, Hplus, Hstart, Hend. cbn [mbind pyresult_bind].
  rewrite date_loop_range by lia. f_equal. apply set_eq. intros x.
  rewrite !elem_of_union, elem_of_list_to_set, elem_of_seqZ, !elem_of_singleton.
  split; [intros [?|H]; [lia | by apply elem_of_empty in H] | lia].
Qed.

(** ** The two canonicalisations compared *)

Lemma rstrip_by_cons_keep sp c r :
  r ≠ EmptyString → rstrip_by sp r = r → rstrip_by sp (String c r) = String c r.
Proof. intros Hne Hr. simpl. rewrite Hr. by destruct r. Qed.

Lemma split_on_other sep c r :
  Ascii.eqb c sep = false →
  split_on sep (String c r)
  = match split_on sep r with
    | h :: t => String c h :: t
    | [] => [String c EmptyString]
    end.
Proof. intros H. simpl. by rewrite H. Qed.

Lemma contains_char_other sep c r :
  Ascii.eqb c sep = false → contains_char sep (String c r) = contains_char sep r.
Proof. intros H. simpl. by rewrite H. Qed.

(** The number: one or more digits. *)
Lemma re_match_number number :
  number ≠ EmptyString → all_chars isdigit number = true →
  re_match [ {| re_class := isdigit; re_min := 1; re_max := None; re_group := true |} ]
           number
  = Some [number].
Proof.
  intros Hne Hdigits.
  pose proof (re_match_cons_found
    {| re_class := isdigit; re_min := 1; re_max := None; re_group := true |}
    [] number []) as H.
  cbn [re_class re_min re_max re_group] in H.
  rewrite (run_length_all _ _ Hdigits), slice_from_length, slice_to_length in H.
  apply H; [|reflexivity].
  destruct number; [done | simpl; lia].
Qed.

(** The padding: no zero or one zero before a number that starts with
    another digit. *)
Lemma re_match_padding padding number :
  padding = EmptyString ∨ padding = "0" →
  number ≠ EmptyString → all_chars isdigit number = true →
  startswith_char "0" number = false →
  re_match
    [ {| re_class := is_char "0"; re_min := 0; re_max := None; re_group := false |};
      {| re_class := isdigit; re_min := 1; re_max := None; re_group := true |} ]
    (padding ++ number)
  = Some [number].
Proof.
  intros Hpad Hne Hdigits Hzero.
  assert (Hrun : run_length (is_char "0") None number = 0%nat).
  { destruct number as [|n0 rest]; [done|]. simpl in *. unfold is_char.
    by rewrite Hzero. }
  pose proof (re_match_cons_found
    {| re_class := is_char "0"; re_min := 0; re_max := None; re_group := false |}
    [ {| re_class := isdigit; re_min := 1; re_max := None; re_group := true |} ]
    (padding ++ number) [number]) as H.
  cbn [re_class re_min re_max re_group] in H.
  apply H; [lia|].
  destruct Hpad as [-> | ->].
  - rewrite app_empty_l, Hrun. by apply re_match_number.
  - rewrite app_String, app_empty_l. cbn [run_length]. rewrite Hrun.
    change (is_char "0" "0") with true. cbn [slice_from].
    by apply re_match_number.
Qed.

Lemma head_digit_run cls (padding number : string) :
  (∀ c, isdigit c = true → cls c = false) →
  padding = EmptyString ∨ padding = "0" →
  number ≠ EmptyString → all_chars isdigit number = true →
  run_length cls None (padding ++ number) = 0%nat.
Proof.
  intros Hcls Hpad Hne Hdigits. destruct Hpad as [-> | ->].
  - rewrite app_empty_l. destruct number as [|n0 rest]; [done|].
    simpl in *. apply andb_true_iff in Hdigits as [Hn0 _]. by rewrite Hcls.
  - rewrite app_String. simpl. by rewrite Hcls.
Qed.

(** The separator and what follows it. *)
Lemma re_match_after_code padding number :
  padding = EmptyString ∨ padding = "0" →
  number ≠ EmptyString → all_chars isdigit number = true →
  startswith_char "0" number = false →
  re_match (tail flight_number_re) (String " " (padding ++ number))
  = Some [number].
Proof.
  intros Hpad Hne Hdigits Hzero.
  pose proof (re_match_cons_found
    {| re_class := isspace; re_min := 0; re_max := None; re_group := false |}
    (tail (tail flight_number_re))
    (String " " (padding ++ number)) [number]) as H.
  cbn [re_class re_min re_max re_group run_length] in H.
  change (isspace " ") with true in H. cbv iota in H.
  rewrite (head_digit_run isspace) in H by (done || apply digit_not_space).
  apply H; [lia|]. cbn [slice_from]. by apply re_match_padding.
Qed.

(** C4, amended.  On a raw flight number made of a carrier code of two
    or three characters of [[A-Z0-9]], one space, at most one zero of
    padding and a number that does not start with a zero, both
    strategies give the carrier code followed by the number. *)
Theorem strategies_agree_on_spaced_numbers code padding number :
  (String.length code = 2 ∨ String.length code = 3)%nat →
  all_chars is_upper_alnum code = true →
  padding = EmptyString ∨ padding = "0" →
  number ≠ EmptyString →
  all_chars isdigit number = true →
  startswith_char "0" number = false →
  Flight1905.clean_flight_number (PStr (code ++ " " ++ padding ++ number))
  = Ok (code ++ number)
  ∧ Katowise.format_flight_number (PStr (code ++ " " ++ padding ++ number))
    = Ok (PStr (code ++ number)).
Proof.
  intros Hlen Hcode Hpad Hne Hdigits Hzero.
  assert (Htail : padding ++ number ≠ EmptyString).
  { destruct Hpad as [-> | ->]; [by rewrite app_empty_l | by rewrite app_String]. }
  assert (Htail_digits : all_chars isdigit (padding ++ number) = true).
  { rewrite all_chars_app, Hdigits. by destruct Hpad as [-> | ->]. }
  assert (Hrstrip : rstrip_by isspace (String " " (padding ++ number))
                    = String " " (padding ++ number)).
  { apply rstrip_by_cons_keep; [done|]. apply rstrip_by_no_space.
    apply (all_chars_impl isdigit); [|done].
    intros c Hc. by rewrite (digit_not_space c Hc). }
  assert (Hsplit : split_on " " (String " " (padding ++ number))
                   = [EmptyString; padding ++ number]).
  { simpl. by rewrite (split_on_no_sep _ _ (digits_no_blank _ Htail_digits)). }
  assert (Hnumber : (if startswith_char "0" (padding ++ number)
                     then slice_from 1 (padding ++ number)
                     else padding ++ number) = number).
  { destruct Hpad as [-> | ->]; [by rewrite app_empty_l, Hzero | reflexivity]. }
  pose proof (re_match_after_code padding number Hpad Hne Hdigits Hzero) as Hre.
  destruct code as [|a [|b [|c [|d code]]]]; simpl in Hlen; try lia.
  - (* a carrier code of two characters *)
    cbn [all_chars] in Hcode. apply andb_true_iff in Hcode as [Ha Hcode].
    apply andb_true_iff in Hcode as [Hb _].
    rewrite !app_String, !app_empty_l.
    assert (Hstrip : strip (String a (String b (String " " (padding ++ number))))
                     = String a (String b (String " " (padding ++ number)))).
    { unfold strip. cbn [lstrip_by]. rewrite (upper_alnum_not_space a Ha).
      do 2 (apply rstrip_by_cons_keep; [done|]). exact Hrstrip. }
    split.
    + unfold Flight1905.clean_flight_number. cbn [truthy String.eqb negb as_str
        mbind pyresult_bind]. rewrite Hstrip.
      rewrite !contains_char_other, !split_on_other, Hsplit
        by (by apply upper_alnum_not_blank).
      change (contains_char " " (String " " ?s)) with true. cbv iota.
      unfold first_part, last_part. cbn [hd List.last]. by rewrite Hnumber.
    + unfold Katowise.format_flight_number. cbn [as_str mbind pyresult_bind].
      rewrite Hstrip.
      pose proof (re_match_cons_found (hd (Build_re_item isspace 0 None false)
                                          flight_number_re)
                    (tail flight_number_re)
                    (String a (String b (String " " (padding ++ number))))
                    [number]) as H.
      unfold flight_number_re in H, Hre |- *.
      cbn [hd tail re_class re_min re_max re_group run_length] in H, Hre.
      rewrite Ha, Hb in H. change (is_upper_alnum " ") with false in H.
      cbv iota in H. cbn [slice_from slice_to] in H.
      rewrite H; [reflexivity | lia | exact Hre].
  - (* a carrier code of three characters *)
    cbn [all_chars] in Hcode. apply andb_true_iff in Hcode as [Ha Hcode].
    apply andb_true_iff in Hcode as [Hb Hcode].
    apply andb_true_iff in Hcode as [Hc _].
    rewrite !app_String, !app_empty_l.
    assert (Hstrip :
      strip (String a (String b (String c (String " " (padding ++ number)))))
      = String a (String b (String c (String " " (padding ++ number))))).
    { unfold strip. cbn [lstrip_by]. rewrite (upper_alnum_not_space a Ha).
      do 3 (apply rstrip_by_cons_keep; [done|]). exact Hrstrip. }
    split.
    + unfold Flight1905.clean_flight_number. cbn [truthy String.eqb negb as_str
        mbind pyresult_bind]. rewrite Hstrip.
      rewrite !contains_char_other, !split_on_other, Hsplit
        by (by apply upper_alnum_not_blank).
      change (contains_char " " (String " " ?s)) with true. cbv iota.
      unfold first_part, last_part. cbn [hd List.last]. by rewrite Hnumber.
    + unfold Katowise.format_flight_number. cbn [as_str mbind pyresult_bind].
      rewrite Hstrip.
      pose proof (re_match_cons_found (hd (Build_re_item isspace 0 None false)
                                          flight_number_re)
                    (tail flight_number_re)
                    (String a (String b (String c (String " " (padding ++ number)))))
                    [number]) as H.
      unfold flight_number_re in H, Hre |- *.
      cbn [hd tail re_class re_min re_max re_group run_length] in H, Hre.
      rewrite Ha, Hb, Hc in H.
      cbv iota in H. cbn [slice_from slice_to] in H.
      rewrite H; [reflexivity | lia | exact Hre].
Qed.

Lemma strategies_agree_on_spaced_numbers_witness :
  Flight1905.clean_flight_number (PStr ("LO" ++ " " ++ "0" ++ "123"))
  = Ok ("LO" ++ "123")
  ∧ Katowise.format_flight_number (PStr ("LO" ++ " " ++ "0" ++ "123"))
    = Ok (PStr ("LO" ++ "123")).
Proof.
  apply (strategies_agree_on_spaced_numbers "LO" "0" "123").
  - left. reflexivity.
  - reflexivity.
  - right. reflexivity.
  - discriminate.
  - reflexivity.
  - reflexivity.
Defined.

(** ** The query loop *)

(** The call site of [katowise_v3.py] passes five arguments to a
    function of four parameters. *)
Lemma call_with_five_arguments flight_data direction airport_codes tz query_date :
  Katowise.call_process_flight
    [ ArgDict flight_data; ArgInt direction; ArgCodes airport_codes; ArgTz tz;
      ArgDate query_date ]
  = Raise TypeError.
Proof. reflexivity. Qed.

Lemma for_each_keeps_flights {A} (l : list A) (body : A → prog unit) :
  (∀ x st st' r, body x st = (st', r) → all_flights st' = all_flights st) →
  ∀ st st' r, for_each l body st = (st', r) → all_flights st' = all_flights st.
Proof.
  intros Hbody. induction l as [|x l IH]; intros st st' r.
  - by intros [= <- <-].
  - cbn [for_each]. unfold mbind, prog_bind.
    destruct (body x st) as [st1 [[]|e]] eqn:Hx.
    + intros Hrest. rewrite (IH _ _ _ Hrest). by apply (Hbody x _ _ _ Hx).
    + intros [= <- <-]. by apply (Hbody x _ _ _ Hx).
Qed.

(** In [katowise_v3.py] a batch with an entry raises [TypeError] at its
    first entry, and leaves the list of flights as it was. *)
Lemma katowise_batch_keeps_flights direction tz query_date data st st' r :
  for_each data (fun flight_data =>
    flight ← lift (Katowise.call_process_flight
                     [ ArgDict flight_data; ArgInt direction;
                       ArgCodes airport_codes_table; ArgTz tz;
                       ArgDate query_date ]);
    if dict_truthy flight then append_flight flight else mret tt) st
  = (st', r) →
  st' = st ∧ r = match data with [] => Ok tt | _ => Raise TypeError end.
Proof. destruct data; by intros [= <- <-]. Qed.

(** X5.  [get_flights] of [katowise_v3.py] never returns a flight: when
    it returns, the list is the one it started from. *)
Lemma katowise_get_flights_returns_nothing api tz now direction_str st st' flights :
  Katowise.get_flights api tz now direction_str st = (st', Ok flights) →
  flights = all_flights st.
Proof.
  unfold Katowise.get_flights, mbind, prog_bind, lift, return_all_flights.
  destruct (validate_direction direction_str) as [direction|]; [|discriminate].
  destruct (calculate_date_window now) as [dates|]; [|discriminate].
  match goal with
  | |- context [for_each ?l ?body st] =>
      destruct (for_each l body st) as [st1 [[]|e]] eqn:Hloop
  end; [|discriminate].
  intros [= <- <-].
  apply for_each_keeps_flights in Hloop; [done|].
  clear. intros query_date st st' r.
  destruct (get_time_range query_date now) as [range|]; [|by intros [= <- <-]].
  unfold try_except_request, send.
  destruct (api _) as [data|e]; cbn [all_flights requests].
  - match goal with
    | |- context [for_each data ?body ?s] =>
        destruct (for_each data body s) as [st1 r1] eqn:Hbatch
    end.
    apply (katowise_batch_keeps_flights direction tz query_date) in Hbatch
      as [-> ->].
    destruct data; by intros [= <- <-].
  - destruct (is_request_exception e); by intros [= <- <-].
Qed.

(** C2.  [get_flights] of [katowise_v3.py] on an API that answers with
    one well-formed entry: the first request is sent, the call of
    [process_flight] with five arguments raises [TypeError], which is no
    [RequestException], so [get_flights] raises it; no record is
    appended and the second date is never queried.  The entry itself is
    one [process_flight] normalises when it is called with its four
    arguments. *)
Theorem katowise_get_flights_aborts :
  let run :=
    Katowise.get_flights sample_api sample_tz sample_now "arrival" empty_store in
  snd run = Raise TypeError
  ∧ all_flights (fst run) = []
  ∧ length (requests (fst run)) = 1%nat
  ∧ ∃ record,
      Katowise.process_flight ryanair_entry 2 sample_tz sample_date = Ok record.
Proof. repeat split; try reflexivity. eexists; reflexivity. Qed.

(** [19_05_flight.py] on the same API: one record for each of the two
    dates. *)
Example get_flights_1905_sample :
  ∃ first second,
    snd (Flight1905.get_flights sample_api sample_tz sample_now "arrival"
           empty_store) = Ok [first; second].
Proof. eexists _, _. reflexivity. Qed.

(** A status that is JSON [null] has no [strip]: both scripts raise
    [AttributeError], and the loop of [get_flights] does not catch it. *)
Example process_flight_null_status :
  Flight1905.process_flight entry_null_status 2 airport_codes_table sample_tz
                            sample_date = Raise AttributeError
  ∧ Katowise.process_flight entry_null_status 2 sample_tz sample_date
    = Raise AttributeError.
Proof. split; reflexivity. Qed.

Example get_flights_1905_null_status :
  snd (Flight1905.get_flights (fun _ => Ok [entry_null_status; ryanair_entry])
         sample_tz sample_now "arrival" empty_store)
  = Raise AttributeError.
Proof. reflexivity. Qed.

(** [clean_flight_number] raises nothing on a string or on a missing
    flight number. *)
Lemma clean_flight_number_total flight_data :
  text_field flight_data "flight_number" →
  ∃ flight_number,
    Flight1905.clean_flight_number
      (dict_get flight_data "flight_number" (PStr EmptyString)) = Ok flight_number.
Proof.
  unfold text_field, dict_get, Flight1905.clean_flight_number.
  intros [-> | (s & ->)]; cbn [default from_option id]; [eauto|].
  destruct (negb (truthy (PStr s))); [eauto|]. cbn [as_str mbind pyresult_bind].
  destruct (contains_char " " (strip s)); [eauto|].
  destruct (startswith_char "0" (slice_from 2 (strip s))); eauto.
Qed.

Lemma record_1905_truthy flight_data direction airport_codes tz query_date record :
  Flight1905.process_flight flight_data direction airport_codes tz query_date
  = Ok record →
  dict_truthy record = true.
Proof.
  intros H.
  apply process_flight_1905_inv
    in H as (fn & sched & est & act & status & _ & _ & Hfn & _).
  unfold dict_truthy. apply Nat.ltb_lt.
  destruct (size record) eqn:Hsize; [|lia].
  apply map_size_empty_inv in Hsize. subst record.
  by rewrite lookup_empty in Hfn.
Qed.

Lemma for_each_cons_Ok {A} (x : A) l (body : A → prog unit) st st1 :
  body x st = (st1, Ok tt) → for_each (x :: l) body st = for_each l body st1.
Proof. intros H. cbn [for_each]. unfold mbind, prog_bind. by rewrite H. Qed.

(** In [19_05_flight.py] a batch whose entries have strings in their text
    fields, or lack them, is normalised to the end: one record per entry
    is appended and nothing is raised. *)
Lemma batch_1905_completes direction airport_codes tz query_date data st :
  Forall (fun flight_data =>
            text_field flight_data "flight_number"
            ∧ text_field flight_data "airport"
            ∧ text_field flight_data "airline_name"
            ∧ text_field flight_data "status") data →
  ∃ records,
    for_each data (fun flight_data =>
      flight ← lift (Flight1905.process_flight flight_data direction
                       airport_codes tz query_date);
      if dict_truthy flight then append_flight flight else mret tt) st
    = ({| all_flights := all_flights st ++ records; requests := requests st |},
       Ok tt)
    ∧ Forall2 (fun flight_data record =>
                 Flight1905.process_flight flight_data direction airport_codes
                                           tz query_date = Ok record)
              data records.
Proof.
  intros Hdata. revert st.
  induction Hdata as [|flight_data data (Hn & Ha & Hl & Hs) _ IH]; intros st.
  - exists []. split; [|constructor]. cbn [for_each]. unfold mret, prog_ret.
    rewrite app_nil_r. by destruct st.
  - destruct (clean_flight_number_total _ Hn) as [fn Hfn].
    destruct (process_flight_1905_total flight_data direction airport_codes tz
                query_date fn Hfn Ha Hl Hs) as [record Hrun].
    rewrite (for_each_cons_Ok _ _ _ _
               {| all_flights := all_flights st ++ [record];
                  requests := requests st |}).
    2:{ unfold mbind, prog_bind, lift. rewrite Hrun.
        by rewrite (record_1905_truthy _ _ _ _ _ _ Hrun). }
    destruct (IH {| all_flights := all_flights st ++ [record];
                    requests := requests st |}) as (records & -> & Hall).
    exists (record :: records). cbn [all_flights requests].
    rewrite <- app_assoc. split; [reflexivity | by constructor].
Qed.

(** ** The time bounds of a request *)

Lemma strftime_HM_shape dt :
  wf_datetime dt → is_hhmm (strftime_HM dt) = true.
Proof.
  intros (Hh & Hm & _). unfold strftime_HM.
  rewrite !pad_2_digits by lia. unfold is_hhmm, two_digits.
  cbv [String.append has_shape]. by rewrite !digit_char_isdigit.
Qed.

(** The two ends of the window show the same time of day. *)
Lemma window_ends now :
  wf_datetime now →
  2 <= dt_date now <= MAXORDINAL - 2 →
  ∃ time_window_start time_window_end,
    datetime_sub now (timedelta_hours 12) = Ok time_window_start
    ∧ datetime_add now (timedelta_hours 12) = Ok time_window_end
    ∧ dt_date time_window_start = dt_date time_window_end - 1
    ∧ strftime_HM time_window_start = strftime_HM time_window_end
    ∧ wf_datetime time_window_end.
Proof.
  intros Hwf Hrange.
  destruct timedelta_half_day as [Hplus Hminus].
  pose proof Hwf as (Hh & Hm & Hs & Hus).
  assert (Hcarry : 0 <= (dt_hour now * 3600 + dt_minute now * 60 + dt_second now
                         + 43200) / 86400 <= 1)
    by (Z.to_euclidean_division_equations; lia).
  destruct (datetime_add_half_day now (-1) Hwf)
    as (tws & Hstart & Hsdate & Hswf & Hsmicro); [lia|].
  destruct (datetime_add_half_day now 0 Hwf)
    as (twe & Hend & Hedate & Hewf & Hemicro); [lia|].
  exists tws, twe. unfold datetime_sub. rewrite Hminus, Hplus.
  split; [exact Hstart|]. split; [exact Hend|]. split; [lia|].
  split; [|exact Hewf].
  unfold strftime_HM. unfold to_microseconds in *.
  destruct Hswf as (? & ? & ? & ?), Hewf as (? & ? & ? & ?).
  assert (dt_hour tws = dt_hour twe ∧ dt_minute tws = dt_minute twe) as [-> ->]
    by lia.
  reflexivity.
Qed.

(** X1.  The window is 24 hours long, so its two ends show the same time
    of day [HH:MM]: the day before the end is queried from [HH:MM] to
    ["23:59"], the day of the end from ["00:00"] to [HH:MM], and any
    other date would be queried for the whole day. *)
Theorem get_time_range_of_window now :
  wf_datetime now →
  2 <= dt_date now <= MAXORDINAL - 2 →
  ∃ time_window_end,
    datetime_add now (timedelta_hours 12) = Ok time_window_end
    ∧ is_hhmm (strftime_HM time_window_end) = true
    ∧ get_time_range (dt_date time_window_end - 1) now
      = Ok (strftime_HM time_window_end, "23:59")
    ∧ get_time_range (dt_date time_window_end) now
      = Ok ("00:00", strftime_HM time_window_end)
    ∧ ∀ query_date,
        query_date ≠ dt_date time_window_end - 1 →
        query_date ≠ dt_date time_window_end →
        get_time_range query_date now = Ok ("00:00", "23:59").
Proof.
  intros Hwf Hrange.
  destruct (window_ends now Hwf Hrange)
    as (tws & twe & Hstart & Hend & Hdate & Hhm & Hewf).
  exists twe. split; [exact Hend|].
  split; [by apply strftime_HM_shape|].
  unfold get_time_range. rewrite Hstart, Hend. cbn [mbind pyresult_bind].
  rewrite Hdate, Hhm. repeat split.
  - rewrite Z.eqb_refl.
    by destruct (Z.eqb_spec (dt_date twe - 1) (dt_date twe)); [lia|].
  - rewrite Z.eqb_refl.
    by destruct (Z.eqb_spec (dt_date twe) (dt_date twe - 1)); [lia|].
  - intros query_date H1 H2.
    destruct (Z.eqb_spec query_date (dt_date twe - 1)); [done|].
    by destruct (Z.eqb_spec query_date (dt_date twe)).
Qed.

Lemma get_time_range_of_window_witness :
  ∃ time_window_end,
    datetime_add sample_now (timedelta_hours 12) = Ok time_window_end
    ∧ is_hhmm (strftime_HM time_window_end) = true
    ∧ get_time_range (dt_date time_window_end - 1) sample_now
      = Ok (strftime_HM time_window_end, "23:59")
    ∧ get_time_range (dt_date time_window_end) sample_now
      = Ok ("00:00", strftime_HM time_window_end)
    ∧ ∀ query_date,
        query_date ≠ dt_date time_window_end - 1 →
        query_date ≠ dt_date time_window_end →
        get_time_range query_date sample_now = Ok ("00:00", "23:59").
Proof.
  apply (get_time_range_of_window sample_now).
  - unfold wf_datetime, sample_now. cbn. lia.
  - unfold sample_now, sample_date, MAXORDINAL. cbn. lia.
Defined.

(** Both bounds always are a time of day [HH:MM]. *)
Lemma get_time_range_shape query_date now range :
  wf_datetime now →
  2 <= dt_date now <= MAXORDINAL - 2 →
  get_time_range query_date now = Ok range →
  is_hhmm (fst range) = true ∧ is_hhmm (snd range) = true.
Proof.
  intros Hwf Hrange.
  destruct (window_ends now Hwf Hrange)
    as (tws & twe & Hstart & Hend & Hdate & Hhm & Hewf).
  unfold get_time_range. rewrite Hstart, Hend. cbn [mbind pyresult_bind].
  rewrite Hhm. pose proof (strftime_HM_shape twe Hewf).
  intros [= <-]. cbn [fst snd].
  destruct (query_date =? dt_date tws), (query_date =? dt_date twe); done.
Qed.

Lemma calculate_date_window_two_days_witness :
  ∃ time_window_end,
    datetime_add sample_now (timedelta_hours 12) = Ok time_window_end
    ∧ calculate_date_window sample_now
      = Ok {[ dt_date time_window_end - 1; dt_date time_window_end ]}.
Proof.
  apply (calculate_date_window_two_days sample_now).
  - unfold wf_datetime, sample_now. cbn. lia.
  - unfold sample_now, sample_date, MAXORDINAL. cbn. lia.
Defined.

(** ** The query loop of [19_05_flight.py] *)

Lemma date_isoformat_shape d : valid_date d → is_iso_date (date_isoformat d) = true.
Proof.
  intros Hd. unfold date_isoformat.
  destruct (ord2ymd_bounds d Hd) as (y & m & dd & -> & Hy & Hm & Hdd).
  rewrite pad_4_digits by lia. rewrite !pad_2_digits by lia.
  unfold is_iso_date, four_digits, two_digits.
  cbv [String.append has_shape]. by rewrite !digit_char_isdigit.
Qed.

Lemma prog_bind_run {A B} (m : prog A) (f : A → prog B) st :
  (m ≫= f) st
  = match m st with
    | (st', Ok a) => f a st'
    | (st', Raise e) => (st', Raise e)
    end.
Proof. reflexivity. Qed.

(** One turn of the loop of [get_flights] in [19_05_flight.py]. *)
Lemma query_date_step_1905 api tz now direction query_date range st :
  (∀ params, match api params with
             | Ok data => Forall text_entry data
             | Raise e => is_request_exception e = true
             end) →
  get_time_range query_date now = Ok range →
  let params := {| rq_direction := direction;
                   rq_date := date_isoformat query_date;
                   rq_time_from := fst range;
                   rq_time_to := snd range |} in
  ∃ records,
    (range ← lift (get_time_range query_date now);
     let params := {| rq_direction := direction;
                      rq_date := date_isoformat query_date;
                      rq_time_from := fst range;
                      rq_time_to := snd range |} in
     try_except_request (
       data ← send api params;
       for_each data (fun flight_data =>
         flight ← lift (Flight1905.process_flight flight_data direction
                          airport_codes_table tz query_date);
         if dict_truthy flight then append_flight flight else mret tt))) st
    = ({| all_flights := all_flights st ++ records;
          requests := requests st ++ [params] |}, Ok tt)
    ∧ length records = answer_size api params.
Proof.
  intros Hapi Hrange params.
  rewrite prog_bind_run. unfold lift at 1. rewrite Hrange. cbv zeta.
  fold params. unfold try_except_request. rewrite prog_bind_run. unfold send.
  unfold answer_size. specialize (Hapi params).
  destruct (api params) as [data|e].
  - destruct (batch_1905_completes direction airport_codes_table tz query_date
                data {| all_flights := all_flights st;
                        requests := requests st ++ [params] |})
      as (records & Hrun & Hall).
    { apply (Forall_impl _ _ _ Hapi). by intros fd (? & ? & ? & ?). }
    rewrite Hrun. exists records. split; [reflexivity|].
    symmetry. by apply (Forall2_length _ _ _ Hall).
  - rewrite Hapi. exists []. by rewrite app_nil_r.
Qed.

Lemma get_time_range_total query_date now :
  wf_datetime now →
  2 <= dt_date now <= MAXORDINAL - 2 →
  ∃ range, get_time_range query_date now = Ok range.
Proof.
  intros Hwf Hrange.
  destruct (window_ends now Hwf Hrange) as (tws & twe & Hstart & Hend & _).
  unfold get_time_range. rewrite Hstart, Hend. eauto.
Qed.

Lemma elements_pair (a b : date) :
  a ≠ b →
  elements ({[ a; b ]} : gset date) = [a; b]
  ∨ elements ({[ a; b ]} : gset date) = [b; a].
Proof.
  unfold date in *. intros Hne. apply Permutation_length_2_inv.
  rewrite elements_disj_union by set_solver.
  by rewrite !elements_singleton.
Qed.

Lemma window_dates now :
  wf_datetime now →
  2 <= dt_date now <= MAXORDINAL - 2 →
  ∃ time_window_end,
    datetime_add now (timedelta_hours 12) = Ok time_window_end
    ∧ calculate_date_window now
      = Ok {[ dt_date time_window_end - 1; dt_date time_window_end ]}.
Proof.
  intros Hwf Hrange.
  destruct (window_ends now Hwf Hrange)
    as (tws & twe & Hstart & Hend & Hdate & _).
  exists twe. split; [exact Hend|].
  unfold calculate_date_window. rewrite Hstart, Hend. cbn [mbind pyresult_bind].
  destruct (datetime_add_half_day now 0 Hwf) as (twe' & Hend' & Hedate & _).
  { destruct Hwf as (Hh & Hm & Hs & Hus).
    assert (0 <= (dt_hour now * 3600 + dt_minute now * 60 + dt_second now
                  + 43200) / 86400 <= 1)
      by (Z.to_euclidean_division_equations; lia). lia. }
  destruct timedelta_half_day as [Hplus _]. rewrite Hplus in Hend.
  rewrite Hend in Hend'. injection Hend' as <-.
  assert (0 <= (dt_hour now * 3600 + dt_minute now * 60 + dt_second now
                + 43200) / 86400 <= 1).
  { destruct Hwf as (Hh & Hm & Hs & Hus).
    Z.to_euclidean_division_equations; lia. }
  rewrite date_loop_range by lia. f_equal. apply set_eq. intros x.
  rewrite !elem_of_union, elem_of_list_to_set, elem_of_seqZ, !elem_of_singleton.
  split; [intros [?|H']; [lia | by apply elem_of_empty in H'] | lia].
Qed.

(** X4.  [get_flights] of [19_05_flight.py], with a valid direction and
    an API whose answers hold entries with strings in their text fields
    and whose failures are [RequestException]s: nothing is raised, two
    requests are sent, each with the validated direction code, an ISO
    date and two times of day, and the list returned has one record for
    every entry of every answer; a request that fails contributes
    none and does not stop the loop. *)
Theorem get_flights_1905_collects api tz now direction_str direction :
  validate_direction direction_str = Ok direction →
  wf_datetime now →
  2 <= dt_date now <= MAXORDINAL - 2 →
  (∀ params, match api params with
             | Ok data => Forall text_entry data
             | Raise e => is_request_exception e = true
             end) →
  ∃ st flights,
    Flight1905.get_flights api tz now direction_str empty_store = (st, Ok flights)
    ∧ flights = all_flights st
    ∧ length (requests st) = 2%nat
    ∧ Forall (fun params =>
                rq_direction params = direction
                ∧ is_iso_date (rq_date params) = true
                ∧ is_hhmm (rq_time_from params) = true
                ∧ is_hhmm (rq_time_to params) = true) (requests st)
    ∧ length flights = sum_list (answer_size api <$> requests st).
Proof.
  intros Hdir Hwf Hrange Hapi.
  destruct (window_dates now Hwf Hrange) as (twe & Hend & Hdates).
  destruct (datetime_add_half_day now 0 Hwf) as (twe' & Hend' & Hedate & _).
  { pose proof Hwf as (Hh & Hm & Hs & Hus).
    assert (0 <= (dt_hour now * 3600 + dt_minute now * 60 + dt_second now
                  + 43200) / 86400 <= 1)
      by (Z.to_euclidean_division_equations; lia). lia. }
  destruct timedelta_half_day as [Hplus _]. rewrite Hplus in Hend.
  rewrite Hend in Hend'. injection Hend' as <-.
  assert (Hcarry : 0 <= (dt_hour now * 3600 + dt_minute now * 60 + dt_second now
                         + 43200) / 86400 <= 1).
  { destruct Hwf as (Hh & Hm & Hs & Hus).
    Z.to_euclidean_division_equations; lia. }
  assert (Hvalid : ∀ d, d = dt_date twe - 1 ∨ d = dt_date twe → valid_date d)
    by (unfold valid_date; intros d [-> | ->]; lia).
  assert (Hstep : ∀ d st, d = dt_date twe - 1 ∨ d = dt_date twe →
    ∃ range records,
      get_time_range d now = Ok range
      ∧ let params := {| rq_direction := direction;
                         rq_date := date_isoformat d;
                         rq_time_from := fst range;
                         rq_time_to := snd range |} in
        (range ← lift (get_time_range d now);
         let params := {| rq_direction := direction;
                          rq_date := date_isoformat d;
                          rq_time_from := fst range;
                          rq_time_to := snd range |} in
         try_except_request (
           data ← send api params;
           for_each data (fun flight_data =>
             flight ← lift (Flight1905.process_flight flight_data direction
                              airport_codes_table tz d);
             if dict_truthy flight then append_flight flight else mret tt))) st
        = ({| all_flights := all_flights st ++ records;
              requests := requests st ++ [params] |}, Ok tt)
        ∧ length records = answer_size api params
        ∧ is_iso_date (rq_date params) = true
        ∧ is_hhmm (rq_time_from params) = true
        ∧ is_hhmm (rq_time_to params) = true).
  { intros d st Hd.
    destruct (get_time_range_total d now Hwf Hrange) as [range Hr].
    destruct (query_date_step_1905 api tz now direction d range st Hapi Hr)
      as (records & Hrun & Hlen).
    destruct (get_time_range_shape d now range Hwf Hrange Hr) as [Hf Ht].
    exists range, records. split; [exact Hr|]. cbv zeta.
    repeat split; try assumption. cbn [rq_date].
    by apply date_isoformat_shape, Hvalid. }
  unfold Flight1905.get_flights.
  rewrite prog_bind_run. unfold lift at 1. rewrite Hdir. cbv zeta.
  rewrite prog_bind_run. unfold lift at 1. rewrite Hdates.
  rewrite prog_bind_run.
  unfold date in *.
  match goal with |- context [for_each _ ?f _] => set (body := f) end.
  assert (Hloop : ∀ x y, x = dt_date twe - 1 ∨ x = dt_date twe →
                         y = dt_date twe - 1 ∨ y = dt_date twe →
    ∃ st, for_each [x; y] body empty_store = (st, Ok tt)
      ∧ length (requests st) = 2%nat
      ∧ Forall (fun params =>
                  rq_direction params = direction
                  ∧ is_iso_date (rq_date params) = true
                  ∧ is_hhmm (rq_time_from params) = true
                  ∧ is_hhmm (rq_time_to params) = true) (requests st)
      ∧ length (all_flights st) = sum_list (answer_size api <$> requests st)).
  { intros x y Hx Hy.
    destruct (Hstep x empty_store Hx) as (r1 & recs1 & _ & Hrun1 & Hl1 & Hd1 & Hf1 & Ht1).
    cbv zeta in Hrun1, Hl1, Hd1, Hf1, Ht1.
    rewrite (for_each_cons_Ok x [y] body empty_store _ Hrun1).
    match type of Hrun1 with _ = (?s, _) => set (st1 := s) in * end.
    destruct (Hstep y st1 Hy) as (r2 & recs2 & _ & Hrun2 & Hl2 & Hd2 & Hf2 & Ht2).
    cbv zeta in Hrun2, Hl2, Hd2, Hf2, Ht2.
    rewrite (for_each_cons_Ok y [] body st1 _ Hrun2).
    eexists. split; [reflexivity|]. cbn [requests all_flights st1 empty_store app].
    split; [reflexivity|]. split.
    - repeat constructor; assumption.
    - rewrite length_app, Hl1, Hl2. cbn. lia. }
  match goal with
  | |- context [for_each ?l _ _] =>
      assert (Hl : l = [dt_date twe - 1; dt_date twe]
                   ∨ l = [dt_date twe; dt_date twe - 1])
        by (apply elements_pair; lia);
      destruct Hl as [-> | ->]; unfold date in *
  end.
  - destruct (Hloop (dt_date twe - 1) (dt_date twe)) as (st & -> & H2 & Hall & Hlen);
      [auto..|].
    exists st, (all_flights st). unfold return_all_flights. auto.
  - destruct (Hloop (dt_date twe) (dt_date twe - 1)) as (st & -> & H2 & Hall & Hlen);
      [auto..|].
    exists st, (all_flights st). unfold return_all_flights. auto.
Qed.

Lemma get_flights_1905_collects_witness :
  ∃ st flights,
    Flight1905.get_flights flaky_api sample_tz sample_now "Arrivals" empty_store
    = (st, Ok flights)
    ∧ flights = all_flights st
    ∧ length (requests st) = 2%nat
    ∧ Forall (fun params =>
                rq_direction params = 2
                ∧ is_iso_date (rq_date params) = true
                ∧ is_hhmm (rq_time_from params) = true
                ∧ is_hhmm (rq_time_to params) = true) (requests st)
    ∧ length flights = sum_list (answer_size flaky_api <$> requests st).
Proof.
  apply (get_flights_1905_collects flaky_api sample_tz sample_now "Arrivals" 2).
  - reflexivity.
  - unfold wf_datetime, sample_now. cbn. lia.
  - unfold sample_now, sample_date, MAXORDINAL. cbn. lia.
  - intros params. unfold flaky_api.
    destruct (String.eqb (rq_date params) "2025-05-18"); [|reflexivity].
    constructor; [|constructor; [|constructor]].
    + repeat split; right; eexists; reflexivity.
    + split; [left; reflexivity|].
      repeat split; right; eexists; reflexivity.
Defined.

(** ** The shape of a canonical flight number *)

Lemma contains_char_app c s t :
  contains_char c (s ++ t) = contains_char c s || contains_char c t.
Proof.
  induction s as [|x r IH]; [reflexivity|].
  rewrite app_String. simpl. rewrite IH. apply orb_assoc.
Qed.

Lemma contains_char_slice_from c n s :
  contains_char c s = false → contains_char c (slice_from n s) = false.
Proof.
  revert s. induction n as [|n IH]; intros s Hs; [exact Hs|].
  destruct s as [|x r]; [reflexivity|]. simpl in *.
  apply orb_false_iff in Hs as [_ Hr]. by apply IH.
Qed.

Lemma contains_char_slice_to c n s :
  contains_char c s = false → contains_char c (slice_to n s) = false.
Proof.
  revert s. induction n as [|n IH]; intros s Hs; [reflexivity|].
  destruct s as [|x r]; [reflexivity|]. simpl in *.
  apply orb_false_iff in Hs as [Hx Hr]. by rewrite Hx, IH.
Qed.

(** The pieces [split] cuts at a character do not hold that character. *)
Lemma split_on_pieces sep s :
  Forall (fun piece => contains_char sep piece = false) (split_on sep s).
Proof.
  induction s as [|c r IH]; simpl; [by repeat constructor|].
  destruct (Ascii.eqb c sep) eqn:Hc; [by constructor|].
  destruct (split_on sep r) as [|h t]; [repeat constructor; simpl; by rewrite Hc|].
  inversion IH as [|?? Hh Ht]; subst. constructor; [|exact Ht].
  simpl. by rewrite Hc, Hh.
Qed.

Lemma split_on_nonempty sep s : split_on sep s ≠ [].
Proof.
  destruct s as [|c r]; simpl; [done|].
  destruct (Ascii.eqb c sep); [done|]. by destruct (split_on sep r).
Qed.

Lemma first_part_Forall (P : string → Prop) parts :
  parts ≠ [] → Forall P parts → P (first_part parts).
Proof. intros Hne Hall. destruct parts; [done|]. by inversion Hall. Qed.

(** X6.  Whatever [clean_flight_number] returns holds no space: the
    carrier code and the number are pieces cut at the spaces, and a raw
    string without a space keeps having none. *)
Theorem clean_flight_number_no_space flight_number_raw canonical :
  Flight1905.clean_flight_number flight_number_raw = Ok canonical →
  contains_char " " canonical = false.
Proof.
  unfold Flight1905.clean_flight_number.
  destruct (negb (truthy flight_number_raw)); [by intros [= <-]|].
  destruct (as_str flight_number_raw) as [s|]; [|discriminate].
  cbn [mbind pyresult_bind].
  destruct (contains_char " " (strip s)) eqn:Hspace.
  - intros [= <-]. rewrite contains_char_app.
    pose proof (split_on_pieces " " (strip s)) as Hpieces.
    pose proof (split_on_nonempty " " (strip s)) as Hne.
    rewrite (first_part_Forall _ _ Hne Hpieces).
    pose proof (last_part_Forall _ _ Hne Hpieces) as Hlast. cbv beta in Hlast.
    destruct (startswith_char "0" (last_part (split_on " " (strip s))));
      [by apply (contains_char_slice_from " " 1) | exact Hlast].
  - destruct (startswith_char "0" (slice_from 2 (strip s))); intros Heq;
      [|by injection Heq as <-].
    assert (canonical = slice_to 2 (strip s) ++ slice_from 3 (strip s)) as ->
      by congruence.
    rewrite contains_char_app.
    by rewrite contains_char_slice_to, contains_char_slice_from.
Qed.

Lemma clean_flight_number_no_space_witness :
  contains_char " " "FR900" = false.
Proof.
  apply (clean_flight_number_no_space (PStr "  FR  0900 ") "FR900").
  reflexivity.
Defined.

Lemma try_counts_inv {A} (attempt : nat → option A) lo k r :
  try_counts attempt lo k = Some r →
  ∃ j, (lo ≤ j ≤ k)%nat ∧ attempt j = Some r.
Proof.
  induction k as [|k IH]; simpl.
  - destruct (Nat.ltb_spec 0 lo); [discriminate|].
    destruct (attempt 0%nat) eqn:H0; [|discriminate].
    intros [= <-]. exists 0%nat. split; [lia | exact H0].
  - destruct (Nat.ltb_spec (S k) lo); [discriminate|].
    destruct (attempt (S k)) eqn:HS.
    + intros [= <-]. exists (S k). split; [lia | exact HS].
    + intros (j & Hj & Hattempt)%IH. exists j. split; [lia | exact Hattempt].
Qed.

(** A match of a pattern gives its first item a number of characters
    between its minimum and the run at the head of the string, and
    matches the rest of the pattern after them. *)
Lemma re_match_cons_inv it rest s groups :
  re_match (it :: rest) s = Some groups →
  ∃ k groups',
    (re_min it ≤ k ≤ run_length (re_class it) (re_max it) s)%nat
    ∧ re_match rest (slice_from k s) = Some groups'
    ∧ groups = if re_group it then slice_to k s :: groups' else groups'.
Proof.
  cbn [re_match]. intros (k & Hk & Hattempt)%try_counts_inv.
  destruct (re_match rest (slice_from k s)) as [groups'|] eqn:Hrest;
    [|discriminate].
  injection Hattempt as <-. eauto.
Qed.

Lemma slice_to_run cls cap k s :
  (k ≤ run_length cls cap s)%nat →
  all_chars cls (slice_to k s) = true ∧ String.length (slice_to k s) = k.
Proof.
  revert cap s. induction k as [|k IH]; intros cap s Hk; [done|].
  destruct s as [|c r]; simpl in Hk; [lia|].
  destruct (cls c) eqn:Hc; [|lia]. simpl. rewrite Hc.
  destruct cap as [[|n]|]; [lia| |].
  - destruct (IH (Some n) r ltac:(lia)) as [-> ->]. done.
  - destruct (IH None r ltac:(lia)) as [-> ->]. done.
Qed.

Lemma run_length_cap cls n s : (run_length cls (Some n) s ≤ n)%nat.
Proof.
  revert n. induction s as [|c r IH]; intros n; simpl; [lia|].
  destruct (cls c); [|lia]. destruct n; [lia|]. specialize (IH n). lia.
Qed.

(** X7.  [format_flight_number] returns a string of ASCII characters
    either as it received it, or as a carrier code of two or three
    characters of [[A-Z0-9]] followed by one or more digits. *)
Theorem format_flight_number_shape raw :
  is_ascii raw = true →
  Katowise.format_flight_number (PStr raw) = Ok (PStr raw)
  ∨ ∃ airline_code number,
      Katowise.format_flight_number (PStr raw) = Ok (PStr (airline_code ++ number))
      ∧ (2 ≤ String.length airline_code ≤ 3)%nat
      ∧ all_chars is_upper_alnum airline_code = true
      ∧ (1 ≤ String.length number)%nat
      ∧ all_chars isdigit number = true.
Proof.
  intros _.
  unfold Katowise.format_flight_number. cbn [as_str mbind pyresult_bind].
  destruct (re_match flight_number_re (strip raw)) as [groups|] eqn:Hmatch;
    [|by left].
  right. unfold flight_number_re in Hmatch.
  apply re_match_cons_inv in Hmatch as (k1 & g1 & Hk1 & Hmatch & ->).
  apply re_match_cons_inv in Hmatch as (k2 & g2 & _ & Hmatch & ->).
  apply re_match_cons_inv in Hmatch as (k3 & g3 & _ & Hmatch & ->).
  apply re_match_cons_inv in Hmatch as (k4 & g4 & Hk4 & Hmatch & ->).
  cbn [re_match] in Hmatch.
  destruct (at_dollar _); [|discriminate]. injection Hmatch as <-.
  cbn [re_group re_class re_min re_max] in *.
  eexists _, _. split; [reflexivity|].
  pose proof (run_length_cap is_upper_alnum 3 (strip raw)).
  destruct (slice_to_run is_upper_alnum (Some 3%nat) k1 (strip raw)) as [-> ->];
    [lia|].
  match goal with
  | |- context [slice_to k4 ?s] =>
      destruct (slice_to_run isdigit None k4 s) as [-> ->]; [lia|]
  end.
  repeat split; lia.
Qed.

Lemma format_flight_number_shape_witness :
  Katowise.format_flight_number (PStr "W6 3104") = Ok (PStr "W6 3104")
  ∨ ∃ airline_code number,
      Katowise.format_flight_number (PStr "W6 3104")
      = Ok (PStr (airline_code ++ number))
      ∧ (2 ≤ String.length airline_code ≤ 3)%nat
      ∧ all_chars is_upper_alnum airline_code = true
      ∧ (1 ≤ String.length number)%nat
      ∧ all_chars isdigit number = true.
Proof.
  apply (format_flight_number_shape "W6 3104"). reflexivity.
Defined.

(** ** A time of day in its timestamp *)

Lemma isdigit_cases c :
  isdigit c = true →
  c = "0"%char ∨ c = "1"%char ∨ c = "2"%char ∨ c = "3"%char ∨ c = "4"%char
  ∨ c = "5"%char ∨ c = "6"%char ∨ c = "7"%char ∨ c = "8"%char ∨ c = "9"%char.
Proof.
  destruct c as [[] [] [] [] [] [] [] []]; intros H; try discriminate H;
    auto 10.
Qed.

(** Two digits read as a number and printed with ["%02d"] are the same
    two digits. *)
Lemma two_digits_round_trip a b :
  isdigit a = true → isdigit b = true →
  let n := 10 * digit_value a + digit_value b in
  py_int (String a (String b EmptyString)) = Ok n
  ∧ pad 2 n = String a (String b EmptyString)
  ∧ 0 <= n.
Proof.
  intros Ha%isdigit_cases Hb%isdigit_cases.
  repeat (destruct Ha as [-> | Ha]); try subst a;
    repeat (destruct Hb as [-> | Hb]); try subst b;
    (split; [reflexivity | split; [reflexivity | by vm_compute]]).
Qed.

Lemma digit_not_colon c : isdigit c = true → Ascii.eqb c ":" = false.
Proof. by_cases_on_char c. Qed.

Lemma is_hhmm_inv time_str :
  is_hhmm time_str = true →
  ∃ a b c d,
    time_str = String a (String b (String ":" (String c (String d EmptyString))))
    ∧ isdigit a = true ∧ isdigit b = true ∧ isdigit c = true ∧ isdigit d = true.
Proof.
  unfold is_hhmm.
  destruct time_str as [|a [|b [|x [|c [|d [|? ?]]]]]]; cbn [has_shape];
    rewrite ?andb_false_r; try discriminate.
  intros H. repeat (apply andb_true_iff in H as [? H]).
  exists a, b, c, d. repeat split; try assumption.
  assert (x = ":"%char) as -> by (by apply Ascii.eqb_eq). reflexivity.
Qed.

(** X8.  A time string of two digits, a colon and two digits that names
    an hour up to 23 and a minute up to 59 appears unchanged in the
    timestamp both scripts make of it: the date, ["T"], the string,
    [":00.000"] and the offset of the time zone. *)
Theorem parse_flight_time_keeps_hhmm time_str hour minute d tz offset :
  is_hhmm time_str = true →
  unpack_hour_minute (split_on ":" time_str) = Ok (hour, minute) →
  hour <= 23 → minute <= 59 →
  localize tz d hour minute = Ok offset →
  let timestamp :=
    PStr (date_isoformat d ++ "T" ++ time_str ++ ":00.000"
          ++ format_utcoffset offset) in
  Flight1905.parse_flight_time (PStr time_str) d tz = Ok timestamp
  ∧ Katowise.parse_flight_time (PStr time_str) d tz = Ok timestamp.
Proof.
  intros (a & b & c & x & -> & Ha & Hb & Hc & Hx)%is_hhmm_inv Hunpack Hh Hm Htz.
  destruct (two_digits_round_trip a b Ha Hb) as (Hint1 & Hpad1 & Hpos1).
  destruct (two_digits_round_trip c x Hc Hx) as (Hint2 & Hpad2 & Hpos2).
  cbv zeta in *.
  assert (Hsplit : split_on ":" (String a (String b (String ":"
                                  (String c (String x EmptyString)))))
                   = [String a (String b EmptyString);
                      String c (String x EmptyString)]).
  { simpl. by rewrite !digit_not_colon. }
  rewrite Hsplit in Hunpack. cbn [unpack_hour_minute] in Hunpack.
  rewrite Hint1, Hint2 in Hunpack. cbn [mbind pyresult_bind] in Hunpack.
  injection Hunpack as <- <-.
  assert (Hbody : parse_flight_time_body
                    (PStr (String a (String b (String ":"
                             (String c (String x EmptyString)))))) d tz
                  = Ok (PStr (isoformat_ms d (10 * digit_value a + digit_value b)
                                (10 * digit_value c + digit_value x) offset))).
  { unfold parse_flight_time_body. cbn [as_str mbind pyresult_bind].
    rewrite Hsplit. cbn [unpack_hour_minute]. rewrite Hint1, Hint2.
    cbn [mbind pyresult_bind fst snd]. unfold py_time.
    destruct (Z.leb_spec 0 (10 * digit_value a + digit_value b)); [|lia].
    destruct (Z.leb_spec (10 * digit_value a + digit_value b) 23); [|lia].
    destruct (Z.leb_spec 0 (10 * digit_value c + digit_value x)); [|lia].
    destruct (Z.leb_spec (10 * digit_value c + digit_value x) 59); [|lia].
    cbn [andb negb mbind pyresult_bind fst snd]. by rewrite Htz. }
  assert (Hiso : isoformat_ms d (10 * digit_value a + digit_value b)
                   (10 * digit_value c + digit_value x) offset
                 = date_isoformat d ++ "T"
                   ++ String a (String b (String ":" (String c (String x EmptyString))))
                   ++ ":00.000" ++ format_utcoffset offset).
  { unfold isoformat_ms. rewrite Hpad1, Hpad2. reflexivity. }
  rewrite parse_flight_time_1905, parse_flight_time_katowise.
  unfold parsed_or_na. rewrite Hbody, Hiso. split; reflexivity.
Qed.

Lemma parse_flight_time_keeps_hhmm_witness :
  let timestamp :=
    PStr (date_isoformat sample_date ++ "T" ++ "14:05" ++ ":00.000"
          ++ format_utcoffset 120) in
  Flight1905.parse_flight_time (PStr "14:05") sample_date sample_tz = Ok timestamp
  ∧ Katowise.parse_flight_time (PStr "14:05") sample_date sample_tz = Ok timestamp.
Proof.
  apply (parse_flight_time_keeps_hhmm "14:05" 14 5 sample_date sample_tz 120).
  - reflexivity.
  - reflexivity.
  - lia.
  - lia.
  - reflexivity.
Defined.

(** ** The time at the end of a status *)







(** The times the status of the specification's example and three
    others carry. *)
Example expected_status_time_samples :
  expected_status_time "Landed 14:05" sample_date sample_tz
  = PStr "2025-05-19T14:05:00.000+02:00"
  ∧ expected_status_time "Landed" sample_date sample_tz = PStr "N/A"
  ∧ expected_status_time "14:05" sample_date sample_tz = PStr "N/A"
  ∧ expected_status_time "Delayed 25:99" sample_date sample_tz = PStr "N/A"
  ∧ expected_status_time "Gate 7 closes 09:5" sample_date sample_tz = PStr "N/A".
Proof. repeat split; reflexivity. Qed.

(** ** Entries that raise *)

Lemma as_str_result v :
  as_str v = if is_str v then as_str v else Raise AttributeError.
Proof. by destruct v. Qed.

Lemma as_str_is_str v : is_str v = true → ∃ s, v = PStr s.
Proof. destruct v; try discriminate. eauto. Qed.

Lemma clean_flight_number_result v :
  if negb (truthy v) || is_str v
  then ∃ canonical, Flight1905.clean_flight_number v = Ok canonical
  else Flight1905.clean_flight_number v = Raise AttributeError.
Proof.
  unfold Flight1905.clean_flight_number.
  destruct (negb (truthy v)); [cbn [orb]; eauto|]. cbn [orb].
  destruct v as [| | |s| |]; cbn [is_str as_str mbind pyresult_bind];
    try reflexivity.
  destruct (contains_char " " (strip s)); [eauto|].
  destruct (startswith_char "0" (slice_from 2 (strip s))); eauto.
Qed.

(** X9.  [process_flight] raises exactly when a [str] method is called
    on an object that is no string, and then it raises [AttributeError]:
    in [19_05_flight.py] for a flight number that is true and no string
    or an airport, airline or status that is no string; in
    [katowise_v3.py] for a flight number or a status that is no string.
    An absent field never raises. *)
Theorem process_flight_raises_on_non_strings flight_data direction
  airport_codes tz query_date :
  (if str_methods_apply_1905 flight_data
   then ∃ record,
          Flight1905.process_flight flight_data direction airport_codes tz
                                    query_date = Ok record
   else Flight1905.process_flight flight_data direction airport_codes tz
                                  query_date = Raise AttributeError)
  ∧ (if str_methods_apply_katowise flight_data
     then ∃ record,
            Katowise.process_flight flight_data direction tz query_date
            = Ok record
     else Katowise.process_flight flight_data direction tz query_date
          = Raise AttributeError).
Proof.
  split.
  - unfold str_methods_apply_1905, Flight1905.process_flight.
    pose proof (clean_flight_number_result
                  (dict_get flight_data "flight_number" (PStr EmptyString))) as Hn.
    destruct (negb (truthy (dict_get flight_data "flight_number" (PStr EmptyString)))
              || is_str (dict_get flight_data "flight_number" (PStr EmptyString)));
      [destruct Hn as [fn ->] | by rewrite Hn].
    cbn [mbind pyresult_bind andb].
    destruct (dict_get flight_data "airport" (PStr EmptyString))
      as [| | |airport| |]; cbn [is_str as_str mbind pyresult_bind andb];
      try reflexivity.
    destruct (dict_get flight_data "airline_name" (PStr EmptyString))
      as [| | |airline| |]; cbn [is_str as_str mbind pyresult_bind andb];
      try reflexivity.
    destruct (dict_get flight_data "status" (PStr EmptyString))
      as [| | |status| |]; cbn [is_str as_str mbind pyresult_bind andb];
      try reflexivity.
    destruct (extract_times_1905 (strip status)
                (dict_get flight_data "scheduled_time" (PStr EmptyString))
                tz query_date) as (sched & est & act & -> & _).
    cbn [mbind pyresult_bind]. destruct (direction =? 2); eauto.
  - unfold str_methods_apply_katowise, Katowise.process_flight,
      Katowise.format_flight_number.
    destruct (dict_get flight_data "flight_number" (PStr EmptyString))
      as [| | |number| |]; cbn [is_str as_str mbind pyresult_bind andb];
      try reflexivity.
    assert (Hfmt : ∃ formatted,
              match re_match flight_number_re (strip number) with
              | Some [airline_code; n] => Ok (PStr (airline_code ++ n))
              | _ => Ok (PStr number)
              end = Ok formatted).
    { destruct (re_match flight_number_re (strip number))
        as [[|? [|? [|? ?]]]|]; eauto. }
    destruct Hfmt as [formatted ->]. cbn [mbind pyresult_bind].
    destruct (dict_get flight_data "status" (PStr EmptyString))
      as [| | |status| |]; cbn [is_str as_str mbind pyresult_bind andb];
      try reflexivity.
    destruct (extract_times_katowise (strip status)
                (dict_get flight_data "scheduled_time" (PStr EmptyString))
                tz query_date) as (sched & est & act & -> & _).
    cbn [mbind pyresult_bind]. destruct (direction =? 2); eauto.
Qed.

(** ** The other fields of a record *)

(** *** Stripping twice *)

Lemma lstrip_by_clean sp s :
  match lstrip_by sp s with
  | EmptyString => True
  | String c _ => sp c = false
  end.
Proof.
  induction s as [|c r IH]; simpl; [done|].
  destruct (sp c) eqn:Hc; [exact IH | exact Hc].
Qed.

Lemma rstrip_by_idemp sp s : rstrip_by sp (rstrip_by sp s) = rstrip_by sp s.
Proof.
  induction s as [|c r IH]; [reflexivity|]. simpl.
  destruct (rstrip_by sp r) as [|x y] eqn:Hr.
  - destruct (sp c) eqn:Hc; [reflexivity|]. simpl. by rewrite Hc.
  - change (rstrip_by sp (String c (String x y))) with
      (match rstrip_by sp (String x y) with
       | EmptyString => if sp c then EmptyString else String c EmptyString
       | r' => String c r'
       end).
    by rewrite IH.
Qed.

Lemma rstrip_by_head sp c r :
  sp c = false → ∃ r', rstrip_by sp (String c r) = String c r'.
Proof.
  intros Hc. simpl. rewrite Hc. destruct (rstrip_by sp r); eauto.
Qed.

Lemma strip_idemp s : strip (strip s) = strip s.
Proof.
  unfold strip. pose proof (lstrip_by_clean isspace s) as Hclean.
  destruct (lstrip_by isspace s) as [|c r]; [reflexivity|].
  destruct (rstrip_by_head isspace c r Hclean) as [r' Hr].
  rewrite Hr. cbn [lstrip_by]. rewrite Hclean, <- Hr. apply rstrip_by_idemp.
Qed.

(** *** Upper case and removed characters *)

Lemma islower_upper_char c : islower (upper_char c) = false.
Proof. by_cases_on_char c. Qed.

Lemma upper_char_blank c : Ascii.eqb (upper_char c) " " = Ascii.eqb c " ".
Proof. by_cases_on_char c. Qed.

Lemma upper_char_dot c : Ascii.eqb (upper_char c) "." = Ascii.eqb c ".".
Proof. by_cases_on_char c. Qed.

Lemma upper_no_lower s : no_lower (upper s) = true.
Proof.
  unfold no_lower, upper. induction s as [|c r IH]; [reflexivity|].
  simpl. by rewrite islower_upper_char, IH.
Qed.

Lemma contains_char_upper x s :
  (∀ c, Ascii.eqb (upper_char c) x = Ascii.eqb c x) →
  contains_char x (upper s) = contains_char x s.
Proof.
  intros Hx. unfold upper. induction s as [|c r IH]; [reflexivity|].
  simpl. by rewrite Hx, IH.
Qed.

Lemma contains_char_remove_same x s : contains_char x (remove_char x s) = false.
Proof.
  induction s as [|c r IH]; [reflexivity|]. simpl.
  destruct (Ascii.eqb c x) eqn:Hc; [exact IH|]. simpl. by rewrite Hc, IH.
Qed.

Lemma contains_char_remove_other x y s :
  contains_char x s = false → contains_char x (remove_char y s) = false.
Proof.
  induction s as [|c r IH]; [done|]. simpl.
  intros [Hc Hr]%orb_false_iff.
  destruct (Ascii.eqb c y); [by apply IH|]. simpl. by rewrite Hc, IH.
Qed.

(** *** The fields of a record of [19_05_flight.py] *)

Lemma process_flight_1905_fields flight_data direction airport_codes tz
  query_date record :
  Flight1905.process_flight flight_data direction airport_codes tz query_date
  = Ok record →
  ∃ airport_raw airline_raw status_raw,
    dict_get flight_data "airport" (PStr EmptyString) = PStr airport_raw
    ∧ dict_get flight_data "airline_name" (PStr EmptyString) = PStr airline_raw
    ∧ dict_get flight_data "status" (PStr EmptyString) = PStr status_raw
    ∧ record !! "airline" = Some (PStr (remove_char "." (strip airline_raw)))
    ∧ record !! "status" = Some (status_or_na (strip status_raw))
    ∧ record !! (if direction =? 2 then "arrival_airport" else "departure_airport")
      = Some (PStr "KTW")
    ∧ record !! (if direction =? 2 then "departure_airport" else "arrival_airport")
      = Some (PStr (upper
           (default (remove_char " " (remove_char "." (strip airport_raw)))
                    (airport_codes !! remove_char "." (strip airport_raw)))))
    ∧ dom record
      = list_to_set (["flight_number"; "is_flight_number"; "callsign"; "airline";
                      "departure_airport"; "arrival_airport"; "status";
                      "airline_iata_code"] ++ time_fields direction).
Proof.
  unfold Flight1905.process_flight. intros H.
  apply bind_Ok_inv in H as (fn & _ & H).
  apply bind_Ok_inv in H as (airport & Hairport & H).
  apply bind_Ok_inv in H as (airline & Hairline & H).
  apply bind_Ok_inv in H as (status & Hstatus & H).
  apply bind_Ok_inv in H as ([[scheduled estimated] actual] & _ & H).
  exists airport, airline, status.
  assert (Hstr : ∀ v s, as_str v = Ok s → v = PStr s)
    by (intros [] ?; simpl; congruence).
  apply Hstr in Hairport, Hairline, Hstatus.
  split; [exact Hairport|]. split; [exact Hairline|]. split; [exact Hstatus|].
  unfold time_fields.
  destruct (direction =? 2); injection H as <-;
    do 4 (split; [dict_lookup|]);
    rewrite !dom_insert_L, dom_empty_L; set_solver.
Qed.

(** X10.  A record of [19_05_flight.py], made of an entry whose airport
    name is ASCII text with a table whose code for it is ASCII text,
    names both ends of the flight: ["KTW"] on the side of the direction,
    and on the other side the code of the table for the airport name
    (stripped, dots removed), in upper case; a name the table lacks is
    used itself, in upper case without spaces and dots.  The other end
    never holds a lower-case letter. *)
Theorem airports_of_record_1905 flight_data direction airport_codes tz
  query_date record :
  ascii_airport flight_data airport_codes = true →
  Flight1905.process_flight flight_data direction airport_codes tz query_date
  = Ok record →
  ∃ airport_raw other,
    dict_get flight_data "airport" (PStr EmptyString) = PStr airport_raw
    ∧ record !! (if direction =? 2 then "arrival_airport" else "departure_airport")
      = Some (PStr "KTW")
    ∧ record !! (if direction =? 2 then "departure_airport" else "arrival_airport")
      = Some (PStr other)
    ∧ no_lower other = true
    ∧ match airport_codes !! remove_char "." (strip airport_raw) with
      | Some code => other = upper code
      | None =>
          other = upper (remove_char " " (remove_char "." (strip airport_raw)))
          ∧ contains_char " " other = false
          ∧ contains_char "." other = false
      end.
Proof.
  intros _ H.
  apply process_flight_1905_fields
    in H as (airport & airline & status & Ha & _ & _ & _ & _ & Hhome & Hother & _).
  eexists airport, _. split; [exact Ha|]. split; [exact Hhome|].
  split; [exact Hother|]. split; [apply upper_no_lower|].
  destruct (airport_codes !! remove_char "." (strip airport)) as [code|];
    cbn [default from_option id]; [reflexivity|].
  split; [reflexivity|].
  rewrite (contains_char_upper " "), (contains_char_upper ".")
    by (apply upper_char_blank || apply upper_char_dot).
  split; [apply contains_char_remove_same|].
  apply contains_char_remove_other, contains_char_remove_same.
Qed.

Lemma status_or_na_clean status :
  ∃ s, status_or_na (strip status) = PStr s
       ∧ s ≠ EmptyString ∧ strip s = s
       ∧ (s = if String.eqb (strip status) EmptyString then "N/A" else strip status).
Proof.
  unfold status_or_na. cbn [truthy].
  destruct (String.eqb_spec (strip status) EmptyString) as [Heq|Hne]; cbn [negb].
  - exists "N/A". repeat split; done.
  - exists (strip status). repeat split; [done | apply strip_idemp].
Qed.

Lemma process_flight_katowise_status flight_data direction tz query_date record :
  Katowise.process_flight flight_data direction tz query_date = Ok record →
  ∃ status_raw,
    dict_get flight_data "status" (PStr EmptyString) = PStr status_raw
    ∧ record !! "status" = Some (status_or_na (strip status_raw)).
Proof.
  unfold Katowise.process_flight. intros H.
  apply bind_Ok_inv in H as (fn & _ & H).
  apply bind_Ok_inv in H as (status & Hstatus & H).
  apply bind_Ok_inv in H as ([[scheduled estimated] actual] & _ & H).
  exists status. split; [by destruct (dict_get _ _ _); simpl in Hstatus; simplify_eq|].
  destruct (direction =? 2); injection H as <-; dict_lookup.
Qed.

(** X11.  In both scripts the status of a record made of an entry whose
    status is ASCII text is the raw status without the white space
    around it, or ["N/A"] when nothing is left: it is never empty and
    stripping it again changes nothing. *)
Theorem status_of_record flight_data direction airport_codes tz query_date
  record_1905 record_katowise :
  ascii_field flight_data "status" = true →
  (Flight1905.process_flight flight_data direction airport_codes tz query_date
   = Ok record_1905 →
   ∃ status_raw s,
     dict_get flight_data "status" (PStr EmptyString) = PStr status_raw
     ∧ record_1905 !! "status" = Some (PStr s)
     ∧ s ≠ EmptyString ∧ strip s = s
     ∧ s = if String.eqb (strip status_raw) EmptyString
           then "N/A" else strip status_raw)
  ∧ (Katowise.process_flight flight_data direction tz query_date
     = Ok record_katowise →
     ∃ status_raw s,
       dict_get flight_data "status" (PStr EmptyString) = PStr status_raw
       ∧ record_katowise !! "status" = Some (PStr s)
       ∧ s ≠ EmptyString ∧ strip s = s
       ∧ s = if String.eqb (strip status_raw) EmptyString
             then "N/A" else strip status_raw).
Proof.
  intros _. split; intros H.
  - apply process_flight_1905_fields
      in H as (airport & airline & status & _ & _ & Hs & _ & Hstatus & _).
    destruct (status_or_na_clean status) as (s & Heq & Hne & Hstrip & Hval).
    exists status, s. rewrite Hstatus, Heq. auto.
  - apply process_flight_katowise_status in H as (status & Hs & Hstatus).
    destruct (status_or_na_clean status) as (s & Heq & Hne & Hstrip & Hval).
    exists status, s. rewrite Hstatus, Heq. auto.
Qed.

(** X12.  In every record of both scripts the estimated time and the
    actual time are the same value. *)
Theorem estimated_is_actual flight_data direction airport_codes tz query_date
  record_1905 record_katowise :
  (Flight1905.process_flight flight_data direction airport_codes tz query_date
   = Ok record_1905 →
   ∃ scheduled time,
     map (fun key => record_1905 !! key) (time_fields direction)
     = [Some scheduled; Some time; Some time])
  ∧ (Katowise.process_flight flight_data direction tz query_date
     = Ok record_katowise →
     ∃ scheduled time,
       map (fun key => record_katowise !! key) (time_fields direction)
       = [Some scheduled; Some time; Some time]).
Proof.
  split; intros H.
  - apply process_flight_1905_inv
      in H as (fn & sched & est & act & status & _ & Htimes & _ & _ & _ & _ & Hfields).
    destruct (extract_times_1905 status
                (dict_get flight_data "scheduled_time" (PStr EmptyString))
                tz query_date) as (sched' & est' & act' & Htimes' & _ & Hstatus).
    rewrite Htimes in Htimes'. injection Htimes' as <- <- <-.
    exists sched, est. rewrite Hfields.
    by destruct (status_time_token status); destruct Hstatus as [-> ->].
  - apply process_flight_katowise_inv
      in H as (sched & est & act & status & Htimes & Hfields).
    destruct (extract_times_katowise status
                (dict_get flight_data "scheduled_time" (PStr EmptyString))
                tz query_date) as (sched' & est' & act' & Htimes' & _ & Hstatus).
    rewrite Htimes in Htimes'. injection Htimes' as <- <- <-.
    exists sched, est. rewrite Hfields.
    by destruct (status_time_token status); destruct Hstatus as [-> ->].
Qed.

(** X13.  A record of [katowise_v3.py] repeats the flight number as
    call sign and passes airline, terminal and airport through as the
    entry has them.  An arrival has nine fields, the airport as
    [departure_airport] and no boarding gate or check-in; any other
    direction gives eleven fields, the airport as [arrival_airport] and
    [boarding_gate] and [checkin_location] as the entry has them, [None]
    when it has none. *)
Theorem katowise_direction_shaping flight_data direction tz query_date record :
  Katowise.process_flight flight_data direction tz query_date = Ok record →
  record !! "callsign" = record !! "flight_number"
  ∧ record !! "airline"
    = Some (dict_get flight_data "airline_name" (PStr EmptyString))
  ∧ record !! "terminal"
    = Some (dict_get flight_data "terminal" (PStr EmptyString))
  ∧ if direction =? 2
    then record !! "departure_airport"
         = Some (dict_get flight_data "airport" (PStr EmptyString))
         ∧ record !! "arrival_airport" = None
         ∧ record !! "boarding_gate" = None
         ∧ record !! "checkin_location" = None
         ∧ size record = 9%nat
    else record !! "arrival_airport"
         = Some (dict_get flight_data "airport" (PStr EmptyString))
         ∧ record !! "departure_airport" = None
         ∧ record !! "boarding_gate"
           = Some (dict_get flight_data "boarding_gate" PNone)
         ∧ record !! "checkin_location"
           = Some (dict_get flight_data "checkin_location" PNone)
         ∧ size record = 11%nat.
Proof.
  unfold Katowise.process_flight. intros H.
  apply bind_Ok_inv in H as (fn & _ & H).
  apply bind_Ok_inv in H as (status & _ & H).
  apply bind_Ok_inv in H as ([[scheduled estimated] actual] & _ & H).
  destruct (direction =? 2); injection H as <-.
  - do 7 (split; [dict_lookup|]).
    rewrite !map_size_insert_None, map_size_empty; [reflexivity|dict_lookup..].
  - do 7 (split; [dict_lookup|]).
    rewrite !map_size_insert_None, map_size_empty; [reflexivity|dict_lookup..].
Qed.

Lemma airports_of_record_1905_witness :
  ∃ airport_raw other,
    dict_get ryanair_entry "airport" (PStr EmptyString) = PStr airport_raw
    ∧ ryanair_record !! (if 1 =? 2 then "arrival_airport" else "departure_airport")
      = Some (PStr "KTW")
    ∧ ryanair_record !! (if 1 =? 2 then "departure_airport" else "arrival_airport")
      = Some (PStr other)
    ∧ no_lower other = true
    ∧ match airport_codes_table !! remove_char "." (strip airport_raw) with
      | Some code => other = upper code
      | None =>
          other = upper (remove_char " " (remove_char "." (strip airport_raw)))
          ∧ contains_char " " other = false
          ∧ contains_char "." other = false
      end.
Proof.
  apply (airports_of_record_1905 ryanair_entry 1 airport_codes_table sample_tz
           sample_date ryanair_record).
  - reflexivity.
  - reflexivity.
Defined.

Lemma status_of_record_witness :
  (∃ status_raw s,
     dict_get ryanair_entry "status" (PStr EmptyString) = PStr status_raw
     ∧ ryanair_record !! "status" = Some (PStr s)
     ∧ s ≠ EmptyString ∧ strip s = s
     ∧ s = if String.eqb (strip status_raw) EmptyString
           then "N/A" else strip status_raw)
  ∧ (∃ status_raw s,
       dict_get ryanair_entry "status" (PStr EmptyString) = PStr status_raw
       ∧ ryanair_record_katowise !! "status" = Some (PStr s)
       ∧ s ≠ EmptyString ∧ strip s = s
       ∧ s = if String.eqb (strip status_raw) EmptyString
             then "N/A" else strip status_raw).
Proof.
  destruct (status_of_record ryanair_entry 1 airport_codes_table sample_tz
              sample_date ryanair_record ryanair_record_katowise) as [H1 H2];
    [reflexivity|].
  split; [apply H1 | apply H2]; reflexivity.
Defined.

Lemma estimated_is_actual_witness :
  (∃ scheduled time,
     map (fun key => ryanair_record !! key) (time_fields 1)
     = [Some scheduled; Some time; Some time])
  ∧ (∃ scheduled time,
       map (fun key => ryanair_record_katowise !! key) (time_fields 1)
       = [Some scheduled; Some time; Some time]).
Proof.
  destruct (estimated_is_actual ryanair_entry 1 airport_codes_table sample_tz
              sample_date ryanair_record ryanair_record_katowise) as [H1 H2].
  split; [apply H1 | apply H2]; reflexivity.
Defined.

Lemma katowise_direction_shaping_witness :
  ryanair_record_katowise !! "callsign" = ryanair_record_katowise !! "flight_number"
  ∧ ryanair_record_katowise !! "airline"
    = Some (dict_get ryanair_entry "airline_name" (PStr EmptyString))
  ∧ ryanair_record_katowise !! "terminal"
    = Some (dict_get ryanair_entry "terminal" (PStr EmptyString))
  ∧ if 1 =? 2
    then ryanair_record_katowise !! "departure_airport"
         = Some (dict_get ryanair_entry "airport" (PStr EmptyString))
         ∧ ryanair_record_katowise !! "arrival_airport" = None
         ∧ ryanair_record_katowise !! "boarding_gate" = None
         ∧ ryanair_record_katowise !! "checkin_location" = None
         ∧ size ryanair_record_katowise = 9%nat
    else ryanair_record_katowise !! "arrival_airport"
         = Some (dict_get ryanair_entry "airport" (PStr EmptyString))
         ∧ ryanair_record_katowise !! "departure_airport" = None
         ∧ ryanair_record_katowise !! "boarding_gate"
           = Some (dict_get ryanair_entry "boarding_gate" PNone)
         ∧ ryanair_record_katowise !! "checkin_location"
           = Some (dict_get ryanair_entry "checkin_location" PNone)
         ∧ size ryanair_record_katowise = 11%nat.
Proof.
  apply (katowise_direction_shaping ryanair_entry 1 sample_tz sample_date
           ryanair_record_katowise).
  reflexivity.
Defined.

Lemma malformed_schedule_1905_witness :
  ∃ key, head (time_fields 2) = Some key
         ∧ bad_schedule_record !! key = Some (PStr "N/A").
Proof.
  apply (malformed_schedule_1905 entry_bad_schedule 2 airport_codes_table
           sample_tz sample_date bad_schedule_record "25:99").
  - reflexivity.
  - reflexivity.
  - reflexivity.
  - reflexivity.
Defined.

Lemma katowise_get_flights_returns_nothing_witness :
  [] = all_flights empty_store.
Proof.
  apply (katowise_get_flights_returns_nothing failing_api sample_tz sample_now
           "arrival" empty_store
           (fst (Katowise.get_flights failing_api sample_tz sample_now "arrival"
                   empty_store))
           []).
  reflexivity.
Defined.

(** X15.  In a record of [19_05_flight.py] made of an entry whose
    airline name is ASCII text the call sign is the flight number, and
    the airline is the raw airline name, stripped and with its dots
    removed: it never holds a dot. *)
Theorem airline_and_callsign_1905 flight_data direction airport_codes tz
  query_date record :
  ascii_field flight_data "airline_name" = true →
  Flight1905.process_flight flight_data direction airport_codes tz query_date
  = Ok record →
  record !! "callsign" = record !! "flight_number"
  ∧ ∃ airline_raw airline,
      dict_get flight_data "airline_name" (PStr EmptyString) = PStr airline_raw
      ∧ record !! "airline" = Some (PStr airline)
      ∧ airline = remove_char "." (strip airline_raw)
      ∧ contains_char "." airline = false.
Proof.
  intros _ H. split.
  - apply process_flight_1905_inv
      in H as (fn & sched & est & act & status & _ & _ & -> & -> & _).
    reflexivity.
  - apply process_flight_1905_fields
      in H as (airport & airline & status & _ & Hraw & _ & Hairline & _).
    exists airline, (remove_char "." (strip airline)).
    repeat split; try assumption. apply contains_char_remove_same.
Qed.

Lemma airline_and_callsign_1905_witness :
  ryanair_record !! "callsign" = ryanair_record !! "flight_number"
  ∧ ∃ airline_raw airline,
      dict_get ryanair_entry "airline_name" (PStr EmptyString) = PStr airline_raw
      ∧ ryanair_record !! "airline" = Some (PStr airline)
      ∧ airline = remove_char "." (strip airline_raw)
      ∧ contains_char "." airline = false.
Proof.
  apply (airline_and_callsign_1905 ryanair_entry 1 airport_codes_table sample_tz
           sample_date ryanair_record).
  - reflexivity.
  - reflexivity.
Defined.
